(** * Electronic invoicing against AFIP: a shallow embedding

    The development follows the TypeScript sources:
    - [src/types/invoice.ts]   the records,
    - [src/lib/afip.ts]        the class [AFIPService],
    - [src/app/page.tsx]       the form's recomputation effect and [calculateTotals],
    - the API route            the handlers [POST] and [GET].

    A JavaScript [number] is an IEEE-754 binary64 value.  It is modelled by
    [spec_float] of the Standard Library, with the rounding of every
    operation written out by [SFadd], [SFmul] and [SFdiv] at precision 53. *)

From Stdlib Require Import ZArith Lia List Bool Ascii String SpecFloat Permutation.
From stdpp Require Import base strings list gmap.

Open Scope Z_scope.

Set Warnings "-register-all".

(** ** JavaScript numbers *)

Module JS.

Definition number : Type := spec_float.

Definition prec : Z := 53.
Definition emax : Z := 1024.

Definition NaN : number := S754_nan.
Definition Infinity : number := S754_infinity false.

Definition add : number -> number -> number := SFadd prec emax.
Definition sub : number -> number -> number := SFsub prec emax.
Definition mul : number -> number -> number := SFmul prec emax.
Definition div : number -> number -> number := SFdiv prec emax.

(** [x < y], [x > y], [x <= y] and [x === y] on numbers. *)
Definition lt : number -> number -> bool := SFltb.
Definition gt (x y : number) : bool := SFltb y x.
Definition le : number -> number -> bool := SFleb.
Definition strict_eq : number -> number -> bool := SFeqb.

(** The number nearest to the fraction [n / d] (ties to even): what a
    decimal literal such as [10.5] or the parse of a decimal string denotes. *)
Definition of_ratio (n d : positive) : number :=
  let '(q, e, l) := SFdiv_core_binary prec emax (Zpos n) 0 (Zpos d) 0 in
  binary_round_aux prec emax false q e l.

(** An integer literal. *)
Definition of_Z (n : Z) : number := binary_normalize prec emax n 0 false.

(** The decimal literal [n * 10^-k], for [0 <= n]. *)
Definition decimal (n : Z) (k : Z) : number :=
  match n with
  | Zpos p => of_ratio p (Z.to_pos (10 ^ k))
  | _ => S754_zero false
  end.

Definition is_nan (x : number) : bool :=
  match x with S754_nan => true | _ => false end.

Definition is_finite (x : number) : bool :=
  match x with S754_zero _ | S754_finite _ _ _ => true | _ => false end.

(** [valid x]: [x] is a binary64 value (a 53-bit mantissa in canonical
    position). Every operation above returns valid numbers on valid ones. *)
Definition valid (x : number) : bool := valid_binary prec emax x.

Definition Math_abs : number -> number := SFabs.

(** [Math.floor]: a finite [x] with a negative exponent has the integer
    part [floor (m * 2^e)]; other values are integers already. *)
Definition Math_floor (x : number) : number :=
  match x with
  | S754_finite s m e =>
      if 0 <=? e then x
      else of_Z (cond_Zopp s (Zpos m) / 2 ^ (- e))
  | _ => x
  end.

(** The integer a finite number denotes when it is one; [floor] otherwise. *)
Definition to_Z (x : number) : Z :=
  match x with
  | S754_finite s m e =>
      if 0 <=? e then cond_Zopp s (Zpos m) * 2 ^ e
      else cond_Zopp s (Zpos m) / 2 ^ (- e)
  | _ => 0
  end.

(** *** [Number.prototype.toFixed(2)]

    The result of [x.toFixed(2)] is a string; [fixed2] keeps what the
    string spells.  For a finite [x] below [10^21] in magnitude it is the
    sign and the integer [n] for which [n / 100 - |x|] is closest to zero,
    the larger [n] on a tie (ECMA-262, Number.prototype.toFixed, step 10). *)
Inductive fixed2 : Type :=
  | FxNaN
  | FxInfinity (neg : bool)
  | FxExp (x : number)            (* [10^21 <= |x|]: printed by Number::toString *)
  | FxDec (neg : bool) (n : Z).   (* the digits of [n] with two decimals *)

(** [c <= m * 2^e]. *)
Definition scaled_ge (m : positive) (e : Z) (c : Z) : bool :=
  if 0 <=? e then c <=? Zpos m * 2 ^ e else c * 2 ^ (- e) <=? Zpos m.

(** [floor (100 * m * 2^e + 1/2)]. *)
Definition cents (m : positive) (e : Z) : Z :=
  if 0 <=? e then 100 * Zpos m * 2 ^ e
  else (200 * Zpos m + 2 ^ (- e)) / 2 ^ (1 - e).

Definition toFixed2 (x : number) : fixed2 :=
  match x with
  | S754_nan => FxNaN
  | S754_infinity s => FxInfinity s
  | S754_zero _ => FxDec false 0
  | S754_finite s m e =>
      if scaled_ge m e (10 ^ 21) then FxExp x else FxDec s (cents m e)
  end.

Definition cond_opp (s : bool) (x : number) : number :=
  if s then SFopp x else x.

(** [Number(str)] on a string produced by [toFixed(2)]. *)
Definition Number_of_fixed2 (d : fixed2) : number :=
  match d with
  | FxNaN => S754_nan
  | FxInfinity s => S754_infinity s
  | FxExp x => x
  | FxDec s (Zpos n) => cond_opp s (of_ratio n 100)
  | FxDec s _ => S754_zero s
  end.

(** [Number(x.toFixed(2))]: the rounding to two decimals used by the form. *)
Definition round2 (x : number) : number := Number_of_fixed2 (toFixed2 x).

End JS.

Import JS.

(** ** [src/types/invoice.ts] *)

Record InvoiceItem : Type := mkItem {
  id : string;
  descripcion : string;
  cantidad : number;
  precioUnitario : number;
  alicuotaIVA : number;
  importeIVA : number;
  importeTotal : number
}.

(** A property of the request body may be absent at run time ([undefined]),
    whatever the declared type [string] says: [None] is the absent one. *)
Record ClienteData : Type := mkCliente {
  tipoDocumento : option string;
  numeroDocumento : option string;
  razonSocial : option string;
  domicilio : option string;
  condicionIVA : option string
}.

(** [tipoComprobante] is declared as the union of three string literals;
    a string is what reaches the service at run time. *)
Record InvoiceData : Type := mkInvoice {
  tipoComprobante : string;
  puntoVenta : number;
  numeroComprobante : number;
  fecha : string;
  cliente : ClienteData;
  items : list InvoiceItem;
  subtotal : number;
  totalIVA : number;
  total : number;
  observaciones : option string
}.

Record AFIPResponse : Type := mkResponse {
  success : bool;
  cae : option string;
  fechaVencimientoCae : option string;
  resp_numeroComprobante : option number;
  qrCode : option string;
  error : option string;
  resp_observaciones : option (list string)
}.

Inductive Ambiente : Type := testing | production.

Record AFIPConfig : Type := mkConfig {
  cuit : string;
  cfg_puntoVenta : number;
  certificatePath : string;
  certificatePassword : string;
  endpoint : string;
  ambiente : Ambiente
}.

(** ** [src/app/page.tsx]: the amounts of the form *)

Module Page.

(** The body of the [forEach] callback of the recomputation effect: the two
    values written back for one watched item. *)
Definition subtotalItem (item : InvoiceItem) : number :=
  mul (cantidad item) (precioUnitario item).

Definition ivaItem (item : InvoiceItem) : number :=
  mul (subtotalItem item) (div (alicuotaIVA item) (of_Z 100)).

Definition totalItem (item : InvoiceItem) : number :=
  add (subtotalItem item) (ivaItem item).

(** [form.setValue(`items.${index}.importeIVA`, v)] and its sibling for
    [importeTotal]: the item at [index] of the form's list gets the field;
    an index outside the list writes nothing that is read back here. *)
Definition set_importeIVA (v : number) (it : InvoiceItem) : InvoiceItem :=
  mkItem (id it) (descripcion it) (cantidad it) (precioUnitario it)
         (alicuotaIVA it) v (importeTotal it).

Definition set_importeTotal (v : number) (it : InvoiceItem) : InvoiceItem :=
  mkItem (id it) (descripcion it) (cantidad it) (precioUnitario it)
         (alicuotaIVA it) (importeIVA it) v.

Definition setValue (index : nat) (f : InvoiceItem -> InvoiceItem)
    (form : list InvoiceItem) : list InvoiceItem :=
  alter f index form.

(** One turn of [watchedItems.forEach((item, index) => ...)]. *)
Definition recompute_at (form : list InvoiceItem) (index : nat)
    (item : InvoiceItem) : list InvoiceItem :=
  setValue index (set_importeTotal (round2 (totalItem item)))
    (setValue index (set_importeIVA (round2 (ivaItem item))) form).

(** [forEach] from index [i] on. *)
Fixpoint forEach_from (i : nat) (watched : list InvoiceItem)
    (form : list InvoiceItem) : list InvoiceItem :=
  match watched with
  | [] => form
  | item :: rest => forEach_from (S i) rest (recompute_at form i item)
  end.

(** The effect: [watchedItems] is the form's own list of items. *)
Definition recompute (form : list InvoiceItem) : list InvoiceItem :=
  forEach_from 0 form form.

(** [items.reduce((sum, item) => sum + f(item), 0)]. *)
Definition reduce_sum (f : InvoiceItem -> number) (l : list InvoiceItem) : number :=
  fold_left (fun sum item => add sum (f item)) l (of_Z 0).

Record Totals : Type := mkTotals {
  t_subtotal : number;
  t_totalIVA : number;
  t_total : number
}.

Definition calculateTotals (its : list InvoiceItem) : Totals :=
  let subtotal := reduce_sum subtotalItem its in
  let totalIVA := reduce_sum importeIVA its in
  let total := add subtotal totalIVA in
  mkTotals (round2 subtotal) (round2 totalIVA) (round2 total).

End Page.

(** ** Strings, dates and JavaScript values used by the service *)

Module Str.

(** The decimal digits of a natural integer, most significant first. *)
Definition digit (d : Z) : ascii := ascii_of_nat (48 + Z.to_nat d).

Fixpoint digits_fuel (fuel : nat) (n : Z) (acc : string) : string :=
  let acc' := String (digit (n mod 10)) acc in
  match fuel with
  | O => acc'
  | S fuel' => if n / 10 =? 0 then acc' else digits_fuel fuel' (n / 10) acc'
  end.

Definition digits (n : Z) : string :=
  digits_fuel (Z.to_nat (Z.log2 n)) n "".

Definition is_digit (c : ascii) : bool :=
  let k := nat_of_ascii c in (48 <=? k)%nat && (k <=? 57)%nat.

Fixpoint all_digits (s : string) : bool :=
  match s with
  | EmptyString => true
  | String c s' => is_digit c && all_digits s'
  end.

Fixpoint repeat_char (c : ascii) (n : nat) : string :=
  match n with
  | O => EmptyString
  | S n' => String c (repeat_char c n')
  end.

(** [s.padStart(n, c)] for a one-character filler. *)
Definition padStart (n : nat) (c : ascii) (s : string) : string :=
  String.append (repeat_char c (n - String.length s)) s.

(** [s.replace(/-/g, '')]. *)
Fixpoint remove_dashes (s : string) : string :=
  match s with
  | EmptyString => EmptyString
  | String c s' =>
      if Ascii.eqb c "-"%char then remove_dashes s'
      else String c (remove_dashes s')
  end.

(** [s.replace(pat, rep)] with a string pattern: the first occurrence. *)
Fixpoint replace_first (pat rep s : string) : string :=
  if String.prefix pat s
  then String.append rep (String.substring (String.length pat)
                            (String.length s - String.length pat) s)
  else match s with
       | EmptyString => EmptyString
       | String c s' => String c (replace_first pat rep s')
       end.

End Str.

Module JSDate.

(** Calendar dates as day numbers since 1970-01-01 (proleptic Gregorian
    calendar, as ECMAScript's time values are). *)
Definition msPerDay : Z := 86400000.

Definition civil_from_days (days : Z) : Z * Z * Z :=
  let z := days + 719468 in
  let era := z / 146097 in
  let doe := z - era * 146097 in
  let yoe := (doe - doe / 1460 + doe / 36524 - doe / 146096) / 365 in
  let y := yoe + era * 400 in
  let doy := doe - (365 * yoe + yoe / 4 - yoe / 100) in
  let mp := (5 * doy + 2) / 153 in
  let d := doy - (153 * mp + 2) / 5 + 1 in
  let m := if mp <? 10 then mp + 3 else mp - 9 in
  (if m <=? 2 then y + 1 else y, m, d).

Definition days_from_civil (y m d : Z) : Z :=
  let y' := if m <=? 2 then y - 1 else y in
  let era := y' / 400 in
  let yoe := y' - era * 400 in
  let mp := if 2 <? m then m - 3 else m + 9 in
  let doy := (153 * mp + 2) / 5 + d - 1 in
  let doe := yoe * 365 + yoe / 4 - yoe / 100 + doy in
  era * 146097 + doe - 719468.

Definition pad (n : nat) (k : Z) : string := Str.padStart n "0"%char (Str.digits k).

(** The date part of [toISOString()], [YYYY-MM-DD] for the years 0 to 9999
    and a signed six-digit year outside. *)
Definition iso_date (days : Z) : string :=
  let '(y, m, d) := civil_from_days days in
  let year :=
    if (0 <=? y) && (y <=? 9999) then pad 4 y
    else String.append (if y <? 0 then "-" else "+") (pad 6 (Z.abs y)) in
  String.append year
    (String.append "-" (String.append (pad 2 m) (String.append "-" (pad 2 d)))).

(** The day number a [YYYY-MM-DD] string names. *)
Definition num (s : string) : Z :=
  fold_left (fun acc c => 10 * acc + (Z.of_nat (nat_of_ascii c) - 48))
            (list_ascii_of_string s) 0.

Definition parse_date (s : string) : Z :=
  days_from_civil (num (String.substring 0 4 s))
                  (num (String.substring 5 2 s))
                  (num (String.substring 8 2 s)).

(** The calendar date [n] days after the date [s]. *)
Definition plus_days (s : string) (n : Z) : string := iso_date (parse_date s + n).

(** *** Time values and the local zone

    A time value is a number of milliseconds since the epoch. [tza] is
    ECMAScript's [LocalTZA(t, isUTC)]: the offset of local time from UTC,
    in milliseconds, at the UTC instant [t] ([isUTC] true) or at the local
    time [t] ([isUTC] false). Months count from 1, as [civil_from_days]
    gives them. *)
Definition Day (t : Z) : Z := t / msPerDay.

Definition TimeWithinDay (t : Z) : Z := t mod msPerDay.

(** [MakeDay]: the day number of the first of the month, moved on by
    [date - 1] days; a [date] beyond the end of the month runs into the
    next one. *)
Definition MakeDay (year month date : Z) : Z := days_from_civil year month 1 + date - 1.

Definition MakeDate (day time : Z) : Z := day * msPerDay + time.

(** [TimeClip]: [None] is [NaN], the time value of an invalid [Date]. *)
Definition TimeClip (time : Z) : option Z :=
  if 8640000000000000 <? Z.abs time then None else Some time.

Definition LocalTime (tza : Z -> bool -> Z) (t : Z) : Z := t + tza t true.

Definition UTC (tza : Z -> bool -> Z) (t : Z) : Z := t - tza t false.

(** [Date.prototype.getDate]: the day of the month, in local time. *)
Definition getDate (tza : Z -> bool -> Z) (tv : Z) : Z :=
  let '(_, _, d) := civil_from_days (Day (LocalTime tza tv)) in d.

(** [Date.prototype.setDate]: the new time value of the date. The year,
    the month and the time of day are those of the local time; the result
    goes back to UTC by the offset that holds at the new local time. *)
Definition setDate (tza : Z -> bool -> Z) (tv date : Z) : option Z :=
  let t := LocalTime tza tv in
  let '(y, m, _) := civil_from_days (Day t) in
  TimeClip (UTC tza (MakeDate (MakeDay y m date) (TimeWithinDay t))).

End JSDate.

(** JavaScript values, as far as the service handles them. *)
Inductive jsval : Type :=
  | JSUndefined
  | JSNull
  | JSNumber (x : number)
  | JSString (s : string)
  | JSFunction (name : string)
  | JSObject (props : list (string * jsval)).

(** [!!v]. *)
Definition truthy (v : jsval) : bool :=
  match v with
  | JSUndefined | JSNull => false
  | JSNumber x =>
      match x with S754_nan | S754_zero _ => false | _ => true end
  | JSString s => negb (String.eqb s "")
  | JSFunction _ | JSObject _ => true
  end.

Definition of_option_string (o : option string) : jsval :=
  match o with Some s => JSString s | None => JSUndefined end.

(** The text of a JSON document, by its syntax. [JSON.parse] gives back the
    number a [JNum] token was printed from (Number::toString prints enough
    digits for that), so the token is kept as the number. *)
Inductive json : Type :=
  | JNull
  | JNum (x : number)
  | JStr (s : string)
  | JObj (fields : list (string * json)).

(** [JSON.stringify(v)]: [None] is [undefined]. Properties that hold
    [undefined] or a function are left out, a number that is not finite
    prints as [null], and [-0] prints as [0]. The properties of [JSObject]
    are taken in the order listed, the object's own order for keys that are
    not array indices. *)
Fixpoint JSON_stringify (v : jsval) : option json :=
  match v with
  | JSUndefined | JSFunction _ => None
  | JSNull => Some JNull
  | JSNumber x =>
      Some match x with
           | S754_finite _ _ _ => JNum x
           | S754_zero _ => JNum (S754_zero false)
           | _ => JNull
           end
  | JSString s => Some (JStr s)
  | JSObject props =>
      Some (JObj ((fix fields (l : list (string * jsval)) : list (string * json) :=
                     match l with
                     | [] => []
                     | (k, w) :: l' =>
                         match JSON_stringify w with
                         | Some j => (k, j) :: fields l'
                         | None => fields l'
                         end
                     end) props))
  end.

(** [JSON.parse] of a document. *)
Fixpoint JSON_parse (j : json) : jsval :=
  match j with
  | JNull => JSNull
  | JNum x => JSNumber x
  | JStr s => JSString s
  | JObj fs =>
      JSObject ((fix props (l : list (string * json)) : list (string * jsval) :=
                   match l with
                   | [] => []
                   | (k, w) :: l' => (k, JSON_parse w) :: props l'
                   end) fs)
  end.

(** The object handed to [xml2js]: nested objects, arrays and leaves. A
    leaf is a value or the string of a [toFixed(2)]. *)
Inductive xmlobj : Type :=
  | XVal (v : jsval)
  | XFixed (d : fixed2)
  | XArr (l : list xmlobj)
  | XObj (l : list (string * xmlobj)).

(** The number of elements named [tag] that [Builder.buildObject] emits:
    a key holding an array gives one element per entry of the array, any
    other key one element; the key [$] holds the attributes of the
    enclosing element and gives no element, nor does anything below it. *)
Fixpoint xml_elements (tag : string) (o : xmlobj) : nat :=
  match o with
  | XVal _ | XFixed _ => O
  | XArr l =>
      (fix sum (l : list xmlobj) : nat :=
         match l with
         | [] => O
         | x :: l' => (xml_elements tag x + sum l')%nat
         end) l
  | XObj l =>
      (fix sum (l : list (string * xmlobj)) : nat :=
         match l with
         | [] => O
         | (k, x) :: l' =>
             ((if String.eqb k "$" then O
               else (match x with
                     | XArr es => if String.eqb k tag then List.length es else O
                     | _ => if String.eqb k tag then 1%nat else O
                     end
                     + xml_elements tag x))
              + sum l')%nat
         end) l
  end.

(** [o[key]] on an [xmlobj]. *)
Definition xget (key : string) (o : xmlobj) : xmlobj :=
  match o with
  | XObj l =>
      match List.find (fun kv => String.eqb (fst kv) key) l with
      | Some kv => snd kv
      | None => XVal JSUndefined
      end
  | _ => XVal JSUndefined
  end.

Fixpoint xpath (keys : list string) (o : xmlobj) : xmlobj :=
  match keys with
  | [] => o
  | k :: keys' => xpath keys' (xget k o)
  end.

(** ** Effects: a call trace and exceptions

    The methods of the service are [async] and wrapped in [try]/[catch]. A
    computation takes the trace so far and gives a value or a thrown value,
    with the trace extended by the methods it entered and by what it wrote
    to the console. *)

Inductive thrown : Type :=
  | ErrorObject (message : string)   (* an instance of [Error] *)
  | OtherThrown.                     (* any other thrown value *)

Inductive event : Type :=
  | Call (method : string)
  | ConsoleError (label : string).

Inductive outcome (A : Type) : Type :=
  | Return (a : A)
  | Throw (e : thrown).
Arguments Return {A} a.
Arguments Throw {A} e.

Definition M (A : Type) : Type := list event -> outcome A * list event.

Definition ret {A} (a : A) : M A := fun tr => (Return a, tr).

Definition bind {A B} (c : M A) (k : A -> M B) : M B :=
  fun tr =>
    match c tr with
    | (Return a, tr') => k a tr'
    | (Throw e, tr') => (Throw e, tr')
    end.

Definition log (ev : event) : M unit := fun tr => (Return tt, tr ++ [ev]).

(** The result of a library call, which returns or throws. *)
Definition lift {A} (o : outcome A) : M A := fun tr => (o, tr).

Definition try_catch {A} (body : M A) (handler : thrown -> M A) : M A :=
  fun tr =>
    match body tr with
    | (Return a, tr') => (Return a, tr')
    | (Throw e, tr') => handler e tr'
    end.

Notation "x <- c ;; k" := (bind c (fun x => k))
  (at level 100, c at next level, right associativity).
Notation "c ;;; k" := (bind c (fun _ => k))
  (at level 100, right associativity).

(** Running a computation from the empty trace. *)
Definition run {A} (c : M A) : outcome A * list event := c [].

(** What the service takes from outside: the random source, the clock and
    the time zone of the process, and the two libraries, which return a
    string or throw. *)
Record Env : Type := mkEnv {
  Math_random : number;                     (* the next [Math.random()] *)
  Date_now : Z;                             (* [new Date()], ms since the epoch *)
  LocalTZA : Z -> bool -> Z;                (* the zone: [LocalTZA(t, isUTC)], in ms *)
  buildObject : xmlobj -> outcome string;   (* xml2js [Builder.buildObject] *)
  toDataURL : json -> outcome string        (* [QRCode.toDataURL] *)
}.

(** ** [src/lib/afip.ts] *)

Module AFIPService.

(** The own properties of the literal [tipos]. *)
Definition tipos : gmap string Z :=
  {[ "factura" := 1; "nota_credito" := 2; "nota_debito" := 3 ]}.

(** What a plain object inherits from [Object.prototype]: eleven methods
    and the accessor [__proto__], which gives the prototype itself, an
    object with no enumerable property. *)
Definition Object_prototype_methods : list string :=
  [ "constructor"; "hasOwnProperty"; "isPrototypeOf"; "propertyIsEnumerable";
    "toLocaleString"; "toString"; "valueOf"; "__defineGetter__";
    "__defineSetter__"; "__lookupGetter__"; "__lookupSetter__" ].

Definition inherited (key : string) : jsval :=
  if existsb (String.eqb key) Object_prototype_methods then JSFunction key
  else if String.eqb key "__proto__" then JSObject []
  else JSUndefined.

(** [tipos[tipo]]: an own property, or else an inherited one. *)
Definition tipos_get (tipo : string) : jsval :=
  match tipos !! tipo with
  | Some n => JSNumber (of_Z n)
  | None => inherited tipo
  end.

(** [tipos[tipo] || 1]. *)
Definition getTipoComprobante (tipo : string) : jsval :=
  let v := tipos_get tipo in
  if truthy v then v else JSNumber (of_Z 1).

Definition XNum (n : Z) : xmlobj := XVal (JSNumber (of_Z n)).
Definition XStr (s : string) : xmlobj := XVal (JSString s).

(** The entry of [ar:AlicIva] built for one item. *)
Definition alicIva (item : InvoiceItem) : xmlobj :=
  XObj [ ("ar:Id", XNum 5);
         ("ar:BaseImp", XFixed (toFixed2 (mul (cantidad item) (precioUnitario item))));
         ("ar:Importe", XFixed (toFixed2 (importeIVA item))) ].

Definition xmlData (config : AFIPConfig) (invoiceData : InvoiceData) : xmlobj :=
  let tipoComprobante := getTipoComprobante (tipoComprobante invoiceData) in
  XObj [ ("soap:Envelope", XObj [
    ("$", XObj [ ("xmlns:soap", XStr "http://www.w3.org/2003/05/soap-envelope");
                 ("xmlns:ar", XStr "http://ar.gov.afip.dif.FEV1/") ]);
    ("soap:Header", XObj []);
    ("soap:Body", XObj [
      ("ar:FECAESolicitar", XObj [
        ("ar:Auth", XObj [
          ("ar:Token", XStr "TOKEN_PLACEHOLDER");
          ("ar:Sign", XStr "SIGN_PLACEHOLDER");
          ("ar:Cuit", XStr (cuit config)) ]);
        ("ar:FeCAEReq", XObj [
          ("ar:FeCabReq", XObj [
            ("ar:CantReg", XNum 1);
            ("ar:PtoVta", XVal (JSNumber (cfg_puntoVenta config)));
            ("ar:CbteTipo", XVal tipoComprobante) ]);
          ("ar:FeDetReq", XObj [
            ("ar:FECAEDetRequest", XObj [
              ("ar:Concepto", XNum 1);
              ("ar:DocTipo", XNum 80);
              ("ar:DocNro", XVal (of_option_string (numeroDocumento (cliente invoiceData))));
              ("ar:CbteDesde", XVal (JSNumber (numeroComprobante invoiceData)));
              ("ar:CbteHasta", XVal (JSNumber (numeroComprobante invoiceData)));
              ("ar:CbteFch", XStr (Str.remove_dashes (fecha invoiceData)));
              ("ar:ImpTotal", XFixed (toFixed2 (total invoiceData)));
              ("ar:ImpTotConc", XNum 0);
              ("ar:ImpNeto", XFixed (toFixed2 (subtotal invoiceData)));
              ("ar:ImpOpEx", XNum 0);
              ("ar:ImpIVA", XFixed (toFixed2 (totalIVA invoiceData)));
              ("ar:ImpTrib", XNum 0);
              ("ar:MonId", XStr "PES");
              ("ar:MonCotiz", XNum 1);
              ("ar:Iva", XObj [
                ("ar:AlicIva", XArr (map alicIva (items invoiceData))) ]) ]) ]) ]) ]) ]) ]) ].

Definition generateXMLRequest (env : Env) (config : AFIPConfig)
    (invoiceData : InvoiceData) : M string :=
  log (Call "generateXMLRequest") ;;;
  lift (buildObject env (xmlData config invoiceData)).

Definition signXML (xml : string) : M string :=
  log (Call "signXML") ;;;
  ret (Str.replace_first "SIGN_PLACEHOLDER" "SIMULATED_SIGNATURE"
         (Str.replace_first "TOKEN_PLACEHOLDER" "SIMULATED_TOKEN" xml)).

Definition qrData (config : AFIPConfig) (invoiceData : InvoiceData)
    (cae : string) : jsval :=
  JSObject [
    ("ver", JSNumber (of_Z 1));
    ("fecha", JSString (fecha invoiceData));
    ("cuit", JSString (cuit config));
    ("ptoVta", JSNumber (cfg_puntoVenta config));
    ("tipoCmp", getTipoComprobante (tipoComprobante invoiceData));
    ("nroCmp", JSNumber (numeroComprobante invoiceData));
    ("importe", JSNumber (total invoiceData));
    ("moneda", JSString "PES");
    ("ctz", JSNumber (of_Z 1));
    ("tipoDocRec", JSNumber (of_Z 80));
    ("nroDocRec", of_option_string (numeroDocumento (cliente invoiceData)));
    ("tipoCodAut", JSString "E");
    ("codAut", JSString cae) ].

Definition generateQRCode (env : Env) (config : AFIPConfig)
    (invoiceData : InvoiceData) (cae : string) : M string :=
  log (Call "generateQRCode") ;;;
  match JSON_stringify (qrData config invoiceData cae) with
  | Some qrString => lift (toDataURL env qrString)
  | None => lift (Throw (ErrorObject "String required as first argument"))
  end.

(** [n.toString()] for the result of a [Math.floor]: the digits of an
    integer below [10^21], which is all [generateSimulatedCAE] prints. *)
Definition Number_toString (x : number) : string :=
  match x with
  | S754_nan => "NaN"
  | S754_infinity s => if s then "-Infinity" else "Infinity"
  | S754_zero _ => "0"
  | S754_finite s _ _ =>
      String.append (if s then "-" else "") (Str.digits (Z.abs (to_Z x)))
  end.

Definition generateSimulatedCAE (env : Env) : M string :=
  log (Call "generateSimulatedCAE") ;;;
  ret (Str.padStart 14 "0"%char
         (Number_toString
            (Math_floor (mul (Math_random env) (of_Z 99999999999999))))).

(** [new Date()], [fecha.setDate(fecha.getDate() + 10)] on the local
    calendar, and the date part of [fecha.toISOString()], which is in UTC
    and throws a [RangeError] when the date is invalid. *)
Definition getFechaVencimientoCAE (env : Env) : M string :=
  log (Call "getFechaVencimientoCAE") ;;;
  let fecha := Date_now env in
  match JSDate.setDate (LocalTZA env) fecha (JSDate.getDate (LocalTZA env) fecha + 10) with
  | Some tv => ret (JSDate.iso_date (JSDate.Day tv))
  | None => lift (Throw (ErrorObject "Invalid time value"))
  end.

Definition error_message (e : thrown) : string :=
  match e with
  | ErrorObject message => message
  | OtherThrown => "Error desconocido"
  end.

Definition failure (msg : string) : AFIPResponse :=
  mkResponse false None None None None (Some msg) None.

Definition sendInvoice (env : Env) (config : AFIPConfig)
    (invoiceData : InvoiceData) : M AFIPResponse :=
  log (Call "sendInvoice") ;;;
  try_catch
    (if negb (truthy (of_option_string (numeroDocumento (cliente invoiceData))))
        || (List.length (items invoiceData) =? 0)%nat
     then ret (failure "Datos incompletos: se requiere CUIT del cliente e items")
     else
       xmlRequest <- generateXMLRequest env config invoiceData ;;
       signedXML <- signXML xmlRequest ;;
       simulatedCAE <- generateSimulatedCAE env ;;
       fechaVencimiento <- getFechaVencimientoCAE env ;;
       qrCode <- generateQRCode env config invoiceData simulatedCAE ;;
       ret (mkResponse true (Some simulatedCAE) (Some fechaVencimiento)
              (Some (numeroComprobante invoiceData)) (Some qrCode) None
              (Some ["Comprobante autorizado correctamente"])))
    (fun e =>
       log (ConsoleError "Error en AFIP Service:") ;;;
       ret (failure (String.append "Error al procesar la factura: "
                       (error_message e)))).

Definition getNextInvoiceNumber (env : Env) (tipoComprobante : string) : M number :=
  log (Call "getNextInvoiceNumber") ;;;
  ret (add (Math_floor (mul (Math_random env) (of_Z 1000))) (of_Z 1)).

End AFIPService.

(** ** The API route: [POST /api/factura] *)

Module Route.

(** *** The zod schemas

    [z.number()] of zod 3 refuses [NaN] and nothing else; [z.string()]
    refuses an absent value. An issue is kept by its path, the text that
    [err.path.join('.')] gives; the wording of the message is zod's. *)
Definition z_number (x : number) : bool := negb (is_nan x).
Definition z_positive (x : number) : bool := z_number x && gt x (of_Z 0).
Definition z_min0 (x : number) : bool := z_number x && le (of_Z 0) x.
Definition z_min0_max100 (x : number) : bool :=
  z_number x && le (of_Z 0) x && le x (of_Z 100).

Definition z_string_min1 (o : option string) : bool :=
  match o with
  | Some s => (1 <=? String.length s)%nat
  | None => false
  end.

Definition issue (ok : bool) (path : string) : list string :=
  if ok then [] else [path].

Definition InvoiceItemSchema (prefix : string) (item : InvoiceItem) : list string :=
  issue (1 <=? String.length (descripcion item))%nat (String.append prefix "descripcion")
  ++ issue (z_positive (cantidad item)) (String.append prefix "cantidad")
  ++ issue (z_positive (precioUnitario item)) (String.append prefix "precioUnitario")
  ++ issue (z_min0_max100 (alicuotaIVA item)) (String.append prefix "alicuotaIVA")
  ++ issue (z_min0 (importeIVA item)) (String.append prefix "importeIVA")
  ++ issue (z_positive (importeTotal item)) (String.append prefix "importeTotal").

Definition ClienteSchema (c : ClienteData) : list string :=
  issue (z_string_min1 (tipoDocumento c)) "cliente.tipoDocumento"
  ++ issue (z_string_min1 (numeroDocumento c)) "cliente.numeroDocumento"
  ++ issue (z_string_min1 (razonSocial c)) "cliente.razonSocial"
  ++ issue (z_string_min1 (domicilio c)) "cliente.domicilio"
  ++ issue (z_string_min1 (condicionIVA c)) "cliente.condicionIVA".

(** [/^\d{4}-\d{2}-\d{2}$/]. *)
Definition fecha_regex (s : string) : bool :=
  match list_ascii_of_string s with
  | [y1; y2; y3; y4; d1; m1; m2; d2; a1; a2] =>
      forallb Str.is_digit [y1; y2; y3; y4; m1; m2; a1; a2]
      && Ascii.eqb d1 "-"%char && Ascii.eqb d2 "-"%char
  | _ => false
  end.

Definition z_enum_tipo (s : string) : bool :=
  existsb (String.eqb s) ["factura"; "nota_credito"; "nota_debito"].

Fixpoint items_issues (i : nat) (l : list InvoiceItem) : list string :=
  match l with
  | [] => []
  | item :: l' =>
      InvoiceItemSchema
        (String.append "items." (String.append (Str.digits (Z.of_nat i)) ".")) item
      ++ items_issues (S i) l'
  end.

(** The paths of the issues [InvoiceSchema.safeParse(body)] reports; the
    parse succeeds when there is none. The body is taken to have the shape
    of [InvoiceData]: the checks of the schema that only ask for a type
    ([id: z.string()] of a line, [observaciones: z.string().optional()])
    are met by every value of the record and have no entry here. *)
Definition InvoiceSchema (body : InvoiceData) : list string :=
  issue (z_enum_tipo (tipoComprobante body)) "tipoComprobante"
  ++ issue (z_positive (puntoVenta body)) "puntoVenta"
  ++ issue (z_positive (numeroComprobante body)) "numeroComprobante"
  ++ issue (fecha_regex (fecha body)) "fecha"
  ++ ClienteSchema (cliente body)
  ++ issue (1 <=? List.length (items body))%nat "items"
  ++ items_issues 0 (items body)
  ++ issue (z_positive (subtotal body)) "subtotal"
  ++ issue (z_min0 (totalIVA body)) "totalIVA"
  ++ issue (z_positive (total body)) "total".

(** *** The handler

    A response is the status and the body as [NextResponse.json] writes
    it: a field that holds [undefined] is left out ([None]), a string and a
    list of strings are written as they are, and a number is written as
    [JSON.stringify] prints it, [null] when it is not finite. *)

Record ResponseData : Type := mkData {
  d_cae : option string;
  d_fechaVencimientoCae : option string;
  d_numeroComprobante : option json;
  d_qrCode : option string;
  d_observaciones : option (list string)
}.

(** A number field that may be absent, as written into the body. *)
Definition json_field (o : option number) : option json :=
  match o with
  | Some x => JSON_stringify (JSNumber x)
  | None => None
  end.

Inductive ResponseBody : Type :=
  | Failure (error : string) (details : option (list string))
  | Success (data : ResponseData).

Record Response : Type := mkHttp {
  status : Z;
  body : ResponseBody
}.

(** [items.reduce((sum, item) => sum + item.cantidad * item.precioUnitario, 0)]
    and the sum of the [importeIVA]. *)
Definition calculatedSubtotal (invoiceData : InvoiceData) : number :=
  fold_left (fun sum item => add sum (mul (cantidad item) (precioUnitario item)))
            (items invoiceData) (of_Z 0).

Definition calculatedIVA (invoiceData : InvoiceData) : number :=
  fold_left (fun sum item => add sum (importeIVA item))
            (items invoiceData) (of_Z 0).

(** [a || b] on a string that may be absent. *)
Definition or_string (o : option string) (dflt : string) : string :=
  match o with
  | Some s => if String.eqb s "" then dflt else s
  | None => dflt
  end.

(** [request] is what [await request.json()] gives: the parsed body, or the
    exception of a body that is not JSON. *)
Definition POST (env : Env) (config : AFIPConfig)
    (request : outcome InvoiceData) : M Response :=
  try_catch
    (invoiceData <- lift request ;;
     match InvoiceSchema invoiceData with
     | (_ :: _) as issues =>
         ret (mkHttp 400 (Failure "Datos de factura inválidos" (Some issues)))
     | [] =>
         if gt (Math_abs (sub (calculatedSubtotal invoiceData) (subtotal invoiceData)))
               (decimal 1 2)
         then ret (mkHttp 400
                     (Failure "El subtotal calculado no coincide con el enviado" None))
         else if gt (Math_abs (sub (calculatedIVA invoiceData) (totalIVA invoiceData)))
                    (decimal 1 2)
         then ret (mkHttp 400
                     (Failure "El total de IVA calculado no coincide con el enviado" None))
         else
           afipResponse <- AFIPService.sendInvoice env config invoiceData ;;
           if negb (success afipResponse)
           then ret (mkHttp 500
                       (Failure (or_string (error afipResponse)
                                   "Error al procesar la factura en AFIP") None))
           else ret (mkHttp 200
                       (Success (mkData (cae afipResponse)
                                   (fechaVencimientoCae afipResponse)
                                   (json_field (resp_numeroComprobante afipResponse))
                                   (qrCode afipResponse)
                                   (resp_observaciones afipResponse))))
     end)
    (fun _ =>
       log (ConsoleError "Error en API de factura:") ;;;
       ret (mkHttp 500 (Failure "Error interno del servidor" None))).

End Route.

(** ** Ranges and sample data *)

(** A number of the unit interval [0 <= r < 1], as [Math.random()] gives. *)
Definition unit_interval (r : number) : Prop :=
  valid r = true /\ le (of_Z 0) r = true /\ lt r (of_Z 1) = true.

(** A mantissa [B] in canonical position at the exponent [F]. *)
Definition canonical (B F : Z) : Prop :=
  (2 ^ 52 <= B < 2 ^ 53 /\ -1074 <= F) \/ (0 < B < 2 ^ 52 /\ F = -1074).

(** Equality of numbers as values of the model (not [===]). *)
Definition number_eqb (x y : number) : bool :=
  match x, y with
  | S754_zero s, S754_zero t => Bool.eqb s t
  | S754_infinity s, S754_infinity t => Bool.eqb s t
  | S754_nan, S754_nan => true
  | S754_finite s m e, S754_finite t n f =>
      Bool.eqb s t && Pos.eqb m n && Z.eqb e f
  | _, _ => false
  end.

(** A number that JSON prints and reads back unchanged. *)
Definition json_safe (x : number) : bool :=
  match x with
  | S754_finite _ _ _ | S754_zero false => true
  | _ => false
  end.

Module Sample.

(** The zone of a process that runs in UTC. *)
Definition utc : Z -> bool -> Z := fun _ _ => 0.

(** The zone America/New_York around the spring of 2024: five hours behind
    UTC until 2024-03-10T07:00:00Z, four hours behind from then on; a local
    time counts as summer time from 03:00 of that day. *)
Definition new_york : Z -> bool -> Z :=
  fun t isUTC =>
    if isUTC
    then if t <? 1710054000000 then -18000000 else -14400000
    else if t <? 1710039600000 then -18000000 else -14400000.

(** The clock reads 2024-03-15T10:53:20Z in UTC, [Math.random()] gives 0.5
    and both libraries answer. *)
Definition env : Env :=
  mkEnv (decimal 5 1) 1710500000000 utc
        (fun _ => Return "<soap:Envelope/>") (fun _ => Return "data:image/png;base64,").

(** The clock reads 2024-03-02T00:30:00Z, which is 19:30 of the first of
    March in New York. *)
Definition env_new_york : Env :=
  mkEnv (decimal 5 1) 1709339400000 new_york
        (fun _ => Return "<soap:Envelope/>") (fun _ => Return "data:image/png;base64,").

(** A clock five days before the last time value a [Date] can hold. *)
Definition env_last_days : Env :=
  mkEnv (decimal 5 1) (8640000000000000 - 5 * JSDate.msPerDay) utc
        (fun _ => Return "<soap:Envelope/>") (fun _ => Return "data:image/png;base64,").

(** A QR library that refuses its input. *)
Definition env_qr_throws : Env :=
  mkEnv (decimal 5 1) 1710500000000 utc
        (fun _ => Return "<soap:Envelope/>")
        (fun _ => Throw (ErrorObject "The amount of data is too big to be stored in a QR Code")).

Definition config : AFIPConfig :=
  mkConfig "20123456789" (of_Z 1) "" "" "https://wswhomo.afip.gov.ar/wsfev1/service.asmx"
           testing.

Definition cliente : ClienteData :=
  mkCliente (Some "CUIT") (Some "30712345678") (Some "ACME SA")
            (Some "Av. Corrientes 1234") (Some "Responsable Inscripto").

(** The line of the scenario: 2 units at 100 with 21% of tax. *)
Definition line : InvoiceItem :=
  mkItem "1" "Servicio" (of_Z 2) (of_Z 100) (of_Z 21) (of_Z 42) (of_Z 242).

(** The invoice of the scenario, for a kind, a date and a recipient. *)
Definition scenario (tipo fecha : string) (c : ClienteData) : InvoiceData :=
  mkInvoice tipo (of_Z 1) (of_Z 7) fecha c [line]
            (of_Z 200) (of_Z 42) (of_Z 242) None.

Definition invoice : InvoiceData := scenario "factura" "2024-01-01" cliente.

(** A quarter of a unit at 3.17 with 27% of tax. *)
Definition quarter : InvoiceItem :=
  mkItem "1" "Cable" (decimal 25 2) (decimal 317 2) (of_Z 27) (of_Z 0) (of_Z 0).

(** Three lines whose net amounts add up to 12.415. *)
Definition three : list InvoiceItem :=
  [ mkItem "1" "A" (decimal 5 1) (decimal 1083 2) (of_Z 27) (decimal 146 2) (decimal 688 2);
    mkItem "2" "B" (of_Z 1) (decimal 64 2) (decimal 105 1) (decimal 7 2) (decimal 71 2);
    mkItem "3" "C" (decimal 15 1) (decimal 424 2) (decimal 105 1) (decimal 67 2) (decimal 703 2) ].

Definition three_permuted : list InvoiceItem :=
  match three with
  | [a; b; c] => [a; c; b]
  | _ => []
  end.

(** Two lines, the second taxed at 10.5%. *)
Definition two_lines : InvoiceData :=
  mkInvoice "factura" (of_Z 1) (of_Z 8) "2024-01-01" cliente
    [ line;
      mkItem "2" "Libro" (of_Z 1) (of_Z 100) (decimal 105 1) (decimal 105 1) (decimal 1105 1) ]
    (of_Z 300) (decimal 525 1) (decimal 3525 1) None.

(** The invoice of the scenario with a total that is off by one. *)
Definition off_by_one : InvoiceData :=
  mkInvoice "factura" (of_Z 1) (of_Z 7) "2024-01-01" cliente [line]
            (of_Z 200) (of_Z 42) (of_Z 243) None.

(** The invoice of the scenario with a total that is not finite. *)
Definition infinite_total : InvoiceData :=
  mkInvoice "factura" (of_Z 1) (of_Z 7) "2024-01-01" cliente [line]
            (of_Z 200) (of_Z 42) Infinity None.

(** The invoice of the scenario with a sequence number that is not finite,
    as the body [1e999] gives it. *)
Definition unnumbered : InvoiceData :=
  mkInvoice "factura" (of_Z 1) Infinity "2024-01-01" cliente [line]
            (of_Z 200) (of_Z 42) (of_Z 242) None.

(** The environment [env] with an XML builder that throws. *)
Definition env_builder_throws : Env :=
  mkEnv (decimal 5 1) 1710500000000 utc
        (fun _ => Throw (ErrorObject "Invalid character in name"))
        (fun _ => Return "data:image/png;base64,").

(** The invoice of the scenario under another sales point, with remarks,
    for a recipient without a legal name, its line described differently and
    taxed at 10.5%. *)
Definition relabelled : InvoiceData :=
  mkInvoice "factura" (of_Z 5) (of_Z 7) "2024-01-01"
    (mkCliente (Some "DNI") (Some "30712345678") (Some "") None None)
    [ mkItem "9" "Otro" (of_Z 2) (of_Z 100) (decimal 105 1) (of_Z 42) (of_Z 0) ]
    (of_Z 200) (of_Z 42) (of_Z 242) (Some "sin cargo").

(** What the service answers to [invoice] under [env]. *)
Definition response : AFIPResponse :=
  mkResponse true (Some "49999999999999") (Some "2024-03-25") (Some (of_Z 7))
             (Some "data:image/png;base64,") None
             (Some ["Comprobante autorizado correctamente"]).

(** A recipient with a document number and no legal name. *)
Definition no_name : ClienteData :=
  mkCliente (Some "CUIT") (Some "30712345678") (Some "") (Some "Av. Corrientes 1234")
            (Some "Responsable Inscripto").

End Sample.

(** The values [sendInvoice] computes on the way: the simulated code, the
    expiry date and the JSON text handed to the QR library. *)
Definition simulated_code (env : Env) : string :=
  Str.padStart 14 "0"%char
    (AFIPService.Number_toString
       (Math_floor (mul (Math_random env) (of_Z 99999999999999)))).

Definition expiry (env : Env) : outcome string :=
  match JSDate.setDate (LocalTZA env) (Date_now env)
          (JSDate.getDate (LocalTZA env) (Date_now env) + 10) with
  | Some tv => Return (JSDate.iso_date (JSDate.Day tv))
  | None => Throw (ErrorObject "Invalid time value")
  end.

(** The instant that is ten days later on the local calendar, at the same
    local time of day, as a UTC time value. *)
Definition ten_days_later (env : Env) : Z :=
  JSDate.UTC (LocalTZA env)
    (JSDate.LocalTime (LocalTZA env) (Date_now env) + 10 * JSDate.msPerDay).

(** That instant is a time value a [Date] can hold. *)
Definition valid_time (t : Z) : Prop := Z.abs t <= 8640000000000000.

(** The zone has the same offset at the clock and ten local days later. *)
Definition steady_zone (env : Env) : Prop :=
  LocalTZA env (Date_now env) true
  = LocalTZA env (JSDate.LocalTime (LocalTZA env) (Date_now env) + 10 * JSDate.msPerDay)
      false.

(** No offset of the zone is more than a day. *)
Definition zone_within_a_day (env : Env) : Prop :=
  forall t isUTC, Z.abs (LocalTZA env t isUTC) <= JSDate.msPerDay.

(** The trace of a submission that stopped at the expiry date. *)
Definition date_trace : list event :=
  [ Call "sendInvoice"; Call "generateXMLRequest"; Call "signXML";
    Call "generateSimulatedCAE"; Call "getFechaVencimientoCAE" ].

(** The guard of [sendInvoice]: no document number, or no item. *)
Definition incomplete (invoiceData : InvoiceData) : bool :=
  negb (truthy (of_option_string (numeroDocumento (cliente invoiceData))))
  || (List.length (items invoiceData) =? 0)%nat.

(** The trace of a submission that went through every step. *)
Definition full_trace : list event :=
  [ Call "sendInvoice"; Call "generateXMLRequest"; Call "signXML";
    Call "generateSimulatedCAE"; Call "getFechaVencimientoCAE";
    Call "generateQRCode" ].

(** The names of the properties of an object, in order. *)
Definition keys (v : jsval) : list string :=
  match v with
  | JSObject props => map fst props
  | _ => []
  end.

(** [tipo] is none of the names every object inherits. *)
Definition not_inherited (tipo : string) : bool :=
  match AFIPService.inherited tipo with
  | JSUndefined => true
  | _ => false
  end.

(** ** The API route: [GET /api/factura] *)

Module RouteGET.

(** The two numbers of the body, as [NextResponse.json] writes them. *)
Record NumberData : Type := mkNumberData {
  proximoNumero : option json;
  d_puntoVenta : option json
}.

Inductive GetBody : Type :=
  | GetFailure (error : string)
  | GetSuccess (data : NumberData).

Record GetResponse : Type := mkGet {
  get_status : Z;
  get_body : GetBody
}.

(** [tipo] is [searchParams.get('tipo')], absent when the query has none.
    The sales point is [parseInt(process.env.AFIP_PUNTO_VENTA || '1')], the
    expression the constructor of the service stores in its configuration. *)
Definition GET (env : Env) (config : AFIPConfig) (tipo : option string) : M GetResponse :=
  try_catch
    (let tipoComprobante := Route.or_string tipo "factura" in
     nextNumber <- AFIPService.getNextInvoiceNumber env tipoComprobante ;;
     ret (mkGet 200
            (GetSuccess (mkNumberData (Route.json_field (Some nextNumber))
                           (Route.json_field (Some (cfg_puntoVenta config)))))))
    (fun _ =>
       log (ConsoleError "Error al obtener próximo número:") ;;;
       ret (mkGet 500 (GetFailure "Error al obtener información de numeración"))).

End RouteGET.

(** What [src/lib/afip.ts] reads of an invoice: the kind, the sequence
    number, the date, the document number of the recipient, the three
    totals and, of every line, the quantity, the price and the tax amount. *)
Definition service_view (inv : InvoiceData) :=
  (tipoComprobante inv, numeroComprobante inv, fecha inv,
   numeroDocumento (cliente inv), subtotal inv, totalIVA inv, total inv,
   map (fun it => (cantidad it, precioUnitario it, importeIVA it)) (items inv)).

(** The conditions of the schema on one line and on the recipient. *)
Definition item_ok (item : InvoiceItem) : bool :=
  (1 <=? String.length (descripcion item))%nat
  && Route.z_positive (cantidad item)
  && Route.z_positive (precioUnitario item)
  && Route.z_min0_max100 (alicuotaIVA item)
  && Route.z_min0 (importeIVA item)
  && Route.z_positive (importeTotal item).

Definition cliente_ok (c : ClienteData) : bool :=
  Route.z_string_min1 (tipoDocumento c)
  && Route.z_string_min1 (numeroDocumento c)
  && Route.z_string_min1 (razonSocial c)
  && Route.z_string_min1 (domicilio c)
  && Route.z_string_min1 (condicionIVA c).

(** The two comparisons of the handler: neither recomputed sum is more than
    0.01 away from the one sent. *)
Definition sums_agree (inv : InvoiceData) : bool :=
  negb (gt (Math_abs (sub (Route.calculatedSubtotal inv) (subtotal inv))) (decimal 1 2))
  && negb (gt (Math_abs (sub (Route.calculatedIVA inv) (totalIVA inv))) (decimal 1 2)).

(** The invoice with another total. *)
Definition with_total (t : number) (inv : InvoiceData) : InvoiceData :=
  mkInvoice (tipoComprobante inv) (puntoVenta inv) (numeroComprobante inv) (fecha inv)
            (cliente inv) (items inv) (subtotal inv) (totalIVA inv) t
            (observaciones inv).

(** [s.includes(pat)]: [pat] occurs in [s]. *)
Fixpoint includes (pat s : string) : bool :=
  String.prefix pat s
  || match s with
     | EmptyString => false
     | String _ s' => includes pat s'
     end.

(** [s'] is [s] with the first occurrence of [pat] rewritten to [rep], or
    [s] itself when [pat] does not occur: no occurrence starts before the
    one rewritten. *)
Definition replaced (pat rep s s' : string) : Prop :=
  if includes pat s
  then exists a b,
         s = String.append a (String.append pat b) /\
         s' = String.append a (String.append rep b) /\
         forall a1 a2, a = String.append a1 a2 -> a2 <> EmptyString ->
           String.prefix pat (String.append a2 (String.append pat b)) = false
  else s' = s.

(** The thirteen names of the verification payload. *)
Definition payload_keys : list string :=
  [ "ver"; "fecha"; "cuit"; "ptoVta"; "tipoCmp"; "nroCmp"; "importe"; "moneda";
    "ctz"; "tipoDocRec"; "nroDocRec"; "tipoCodAut"; "codAut" ].

(** The names of the fields of a JSON object, in order. *)
Definition json_keys (j : json) : list string :=
  match j with
  | JObj fields => map fst fields
  | _ => []
  end.

(** The place of the date in the request document. *)
Definition CbteFch_path : list string :=
  [ "soap:Envelope"; "soap:Body"; "ar:FECAESolicitar"; "ar:FeCAEReq";
    "ar:FeDetReq"; "ar:FECAEDetRequest"; "ar:CbteFch" ].

(** * Properties *)

(** ** Rounding of binary64 products

    [binary_round_aux] shifts a mantissa to its exponent and rounds it to
    nearest, ties to even. The lemmas below follow the shift bit by bit and
    bound the rounded product of a number of the unit interval. *)

Module Rounding.

Lemma iter_pos_nat {A} (f : A -> A) (p : positive) (x : A) :
  SpecFloat.iter_pos f p x = Nat.iter (Pos.to_nat p) f x.
Proof.
  revert x. induction p as [p IH | p IH |]; intro x; cbn [SpecFloat.iter_pos].
  - rewrite !IH, Pos2Nat.inj_xI.
    replace (S (2 * Pos.to_nat p)) with (Pos.to_nat p + S (Pos.to_nat p))%nat by lia.
    rewrite Nat.iter_add. now rewrite Nat.iter_succ_r.
  - rewrite !IH, Pos2Nat.inj_xO.
    replace (2 * Pos.to_nat p)%nat with (Pos.to_nat p + Pos.to_nat p)%nat by lia.
    now rewrite Nat.iter_add.
  - reflexivity.
Qed.

(** One step of [shr_1] on a natural mantissa halves it and records the bit
    shifted out. *)
Lemma shr_1_spec (m : Z) (r s : bool) :
  0 <= m ->
  shr_1 (Build_shr_record m r s) = Build_shr_record (m / 2) (Z.odd m) (r || s).
Proof.
  intros Hm. destruct m as [| p | p]; [reflexivity | | lia].
  destruct p as [p | p |]; simpl; try reflexivity.
  - f_equal. rewrite Pos2Z.inj_xI. apply Z.div_unique with (r := 1); lia.
  - f_equal. rewrite Pos2Z.inj_xO. apply Z.div_unique with (r := 0); lia.
Qed.

Lemma digits2_size (p : positive) : digits2_pos p = Pos.size p.
Proof. induction p; simpl; congruence. Qed.

Lemma digits2_bounds (p : positive) :
  2 ^ (Zpos (digits2_pos p) - 1) <= Zpos p < 2 ^ Zpos (digits2_pos p).
Proof.
  rewrite digits2_size. split.
  - pose proof (Pos.size_le p) as H.
    apply Pos2Z.pos_le_pos in H. rewrite Pos2Z.inj_pow in H.
    change (Zpos p~0) with (2 * Zpos p) in H.
    replace (Zpos (Pos.size p)) with (Z.succ (Zpos (Pos.size p) - 1)) in H by lia.
    rewrite Z.pow_succ_r in H by lia. lia.
  - pose proof (Pos.size_gt p) as H.
    apply Pos2Z.pos_lt_pos in H. now rewrite Pos2Z.inj_pow in H.
Qed.

(** [k] steps of [shr_1] from an exact natural mantissa [M]: the mantissa
    is [M / 2^k], and the round bit is set only when the part shifted out
    is at least one half of the last place kept. *)
Lemma shr_iter (M : Z) (k : nat) :
  0 <= M ->
  let rec := Nat.iter k shr_1 (Build_shr_record M false false) in
  shr_m rec = M / 2 ^ Z.of_nat k /\
  (shr_r rec = true -> 2 ^ Z.of_nat k <= 2 * (M mod 2 ^ Z.of_nat k)).
Proof.
  intros HM. induction k as [| k IH]; cbn zeta in *.
  - simpl. rewrite Z.div_1_r. split; [reflexivity | discriminate].
  - rewrite Nat2Z.inj_succ, Z.pow_succ_r by lia.
    rewrite Nat.iter_succ.
    destruct (Nat.iter k shr_1 (Build_shr_record M false false)) as [m r s].
    cbn [shr_m shr_r] in IH. destruct IH as [Hm _].
    assert (HP : 0 < 2 ^ Z.of_nat k) by (apply Z.pow_pos_nonneg; lia).
    assert (0 <= m) by (subst m; apply Z.div_pos; lia).
    rewrite shr_1_spec by assumption. cbn [shr_m shr_r].
    assert (Hdd : m / 2 = M / (2 * 2 ^ Z.of_nat k)).
    { subst m. rewrite Z.div_div by lia. f_equal. lia. }
    split; [exact Hdd |].
    intros Hodd.
    pose proof (Z.div_mod M (2 ^ Z.of_nat k) ltac:(lia)) as E1.
    pose proof (Z.mod_pos_bound M (2 ^ Z.of_nat k) HP) as B1.
    pose proof (Z.div_mod M (2 * 2 ^ Z.of_nat k) ltac:(lia)) as E2.
    pose proof (Z.mod_pos_bound M (2 * 2 ^ Z.of_nat k) ltac:(lia)) as B2.
    rewrite <- Hdd in E2. rewrite <- Hm in E1.
    rewrite (Zodd_div2 m) in E1 by (now apply Zodd_bool_iff).
    rewrite Z.div2_div in E1.
    nia.
Qed.

Lemma fexp_eq (x : Z) : fexp prec emax x = Z.max (x - 53) (-1074).
Proof. reflexivity. Qed.

Lemma round_nearest_even_bounds (rec : shr_record) :
  let m := shr_m rec in
  let r := round_nearest_even m (loc_of_shr_record rec) in
  (r = m \/ (r = m + 1 /\ shr_r rec = true)).
Proof.
  destruct rec as [m [|] [|]]; cbn; try (left; reflexivity).
  - right. split; reflexivity.
  - destruct (Z.even m); [left | right]; split; reflexivity.
Qed.

(** No shift when the mantissa already sits at its exponent. *)
Lemma shr_fexp_noop (m e : Z) :
  fexp prec emax (Zdigits2 m + e) <= e ->
  shr_fexp prec emax m e loc_Exact = (Build_shr_record m false false, e).
Proof.
  intros H. unfold shr_fexp, shr.
  destruct (fexp prec emax (Zdigits2 m + e) - e) eqn:Hn; try reflexivity. lia.
Qed.

Lemma shr_fexp_shift (M : positive) (E : Z) :
  E < fexp prec emax (Zpos (digits2_pos M) + E) ->
  let e1 := fexp prec emax (Zpos (digits2_pos M) + E) in
  exists rec,
    shr_fexp prec emax (Zpos M) E loc_Exact = (rec, e1) /\
    shr_m rec = Zpos M / 2 ^ (e1 - E) /\
    (shr_r rec = true -> 2 ^ (e1 - E) <= 2 * (Zpos M mod 2 ^ (e1 - E))).
Proof.
  intros Hlt e1. unfold shr_fexp, shr. cbn [Zdigits2 shr_record_of_loc].
  fold e1. destruct (e1 - E) as [| n | n] eqn:Hn; try lia.
  rewrite iter_pos_nat.
  pose proof (shr_iter (Zpos M) (Pos.to_nat n) ltac:(lia)) as H.
  cbn zeta in H. rewrite positive_nat_Z in H.
  eexists; split; [| exact H].
  f_equal. lia.
Qed.

Lemma digits_le_53 (r : positive) : Zpos r < 2 ^ 53 -> Zpos (digits2_pos r) <= 53.
Proof.
  intros H. pose proof (digits2_bounds r) as [Hlo _].
  destruct (Z_le_gt_dec (Zpos (digits2_pos r)) 53) as [|Hgt]; [assumption | exfalso].
  assert (2 ^ 53 <= 2 ^ (Zpos (digits2_pos r) - 1)) by (apply Z.pow_le_mono_r; lia).
  lia.
Qed.

(** The second normalisation of [binary_round_aux]: a rounded mantissa of at
    most 53 bits stays, and [2^53] becomes [2^52] one exponent up. *)
Lemma shr_fexp_small (r : positive) (e1 : Z) :
  -1074 <= e1 -> Zpos r < 2 ^ 53 ->
  shr_fexp prec emax (Zpos r) e1 loc_Exact = (Build_shr_record (Zpos r) false false, e1).
Proof.
  intros He Hr. apply shr_fexp_noop. rewrite fexp_eq. cbn [Zdigits2].
  pose proof (digits_le_53 r Hr). lia.
Qed.

Lemma shr_fexp_carry (e1 : Z) :
  -1074 <= e1 ->
  shr_fexp prec emax (2 ^ 53) e1 loc_Exact
  = (Build_shr_record (2 ^ 52) false false, e1 + 1).
Proof.
  intros He. unfold shr_fexp. rewrite fexp_eq.
  change (Zdigits2 (2 ^ 53)) with 54.
  replace (Z.max (54 + e1 - 53) (-1074) - e1) with 1 by lia.
  reflexivity.
Qed.

(** Rounding to nearest never passes a number of the format: a product
    [M * 2^E] below [(B + 1/2) * 2^F] rounds to at most [B * 2^F]. *)
Lemma round_aux_le (M : positive) (E B F : Z) :
  E < fexp prec emax (Zpos (digits2_pos M) + E) ->
  canonical B F -> F <= 971 -> E <= F ->
  2 * Zpos M < (2 * B + 1) * 2 ^ (F - E) ->
  binary_round_aux prec emax false (Zpos M) E loc_Exact = S754_zero false \/
  exists m e,
    binary_round_aux prec emax false (Zpos M) E loc_Exact = S754_finite false m e /\
    E <= e <= F /\ Zpos m * 2 ^ (e - E) <= B * 2 ^ (F - E).
Proof.
  intros Hlt Hc HF HEF Hval.
  destruct (shr_fexp_shift M E Hlt) as [rec [Hs [Hm Hr]]].
  pose proof (digits2_bounds M) as [Hdlo Hdhi].
  rewrite fexp_eq in Hlt, Hs, Hm, Hr.
  set (d := Zpos (digits2_pos M)) in *.
  set (e1 := Z.max (d + E - 53) (-1074)) in *.
  assert (He1 : -1074 <= e1) by lia.
  set (n1 := e1 - E) in *.
  assert (Hn1 : 0 < n1) by lia.
  assert (HP : 0 < 2 ^ n1) by (apply Z.pow_pos_nonneg; lia).
  pose proof (Z.div_mod (Zpos M) (2 ^ n1) ltac:(lia)) as EM.
  pose proof (Z.mod_pos_bound (Zpos M) (2 ^ n1) HP) as BM.
  rewrite <- Hm in EM.
  pose proof (round_nearest_even_bounds rec) as Hrne. cbn zeta in Hrne.
  unfold binary_round_aux. rewrite Hs.
  set (rne := round_nearest_even (shr_m rec) (loc_of_shr_record rec)) in *.
  set (m1 := shr_m rec) in *. set (rm := Zpos M mod 2 ^ n1) in *.
  assert (Hm1 : 0 <= m1) by (rewrite Hm; apply Z.div_pos; lia).
  (* the quotient has at most 53 bits *)
  assert (Hd53 : 2 ^ d <= 2 ^ n1 * 2 ^ 53).
  { rewrite <- Z.pow_add_r by lia. apply Z.pow_le_mono_r; lia. }
  assert (Hm153 : m1 < 2 ^ 53) by nia.
  (* the exponent reached is at most [F] *)
  assert (He1F : e1 <= F).
  { destruct (Z_le_gt_dec e1 F) as [|Hgt]; [assumption | exfalso].
    assert (e1 = d + E - 53) by (destruct Hc as [[_ ?]|[_ ?]]; lia).
    assert (HB : B < 2 ^ 53) by (destruct Hc as [[? _]|[? _]]; lia).
    assert (H1 : 2 ^ (n1 + 52) <= Zpos M).
    { replace (n1 + 52) with (d - 1) by lia. exact Hdlo. }
    rewrite Z.pow_add_r in H1 by lia.
    assert (H2 : 2 * 2 ^ (F - E) <= 2 ^ n1).
    { rewrite <- Z.pow_succ_r by lia. apply Z.pow_le_mono_r; lia. }
    assert (0 < 2 ^ (F - E)) by (apply Z.pow_pos_nonneg; lia).
    change (2 ^ 52) with 4503599627370496 in *.
    change (2 ^ 53) with 9007199254740992 in *. nia. }
  assert (Hbound : rne * 2 ^ n1 <= B * 2 ^ (F - E) /\ rne <= 2 ^ 53 /\
                   (rne = 2 ^ 53 -> e1 + 1 <= F)).
  { destruct (Z.eq_dec e1 F) as [Heq | Hne].
    - replace (F - E) with n1 in * by lia.
      assert (rne <= B).
      { destruct Hrne as [-> | [-> Hrt]]; [nia |].
        specialize (Hr Hrt). fold rm in Hr. nia. }
      assert (B < 2 ^ 53) by (destruct Hc as [[? _]|[? _]]; lia).
      split; [nia | split; lia].
    - assert (HB : 2 ^ 52 <= B) by (destruct Hc as [[? _]|[_ ?]]; lia).
      assert (H2 : 2 * 2 ^ n1 <= 2 ^ (F - E)).
      { rewrite <- Z.pow_succ_r by lia. apply Z.pow_le_mono_r; lia. }
      assert (rne <= 2 ^ 53) by (destruct Hrne as [-> | [-> _]]; lia).
      change (2 ^ 52) with 4503599627370496 in *.
      change (2 ^ 53) with 9007199254740992 in *.
      split; [nia | split; lia]. }
  destruct Hbound as [Hv [Hr53 Hcarry]].
  assert (Hrne0 : 0 <= rne) by (destruct Hrne as [-> | [-> _]]; lia).
  destruct (Z.eq_dec rne 0) as [Hz | Hnz].
  - left. rewrite Hz, shr_fexp_noop by (rewrite fexp_eq; cbn [Zdigits2]; lia).
    reflexivity.
  - right. destruct (Z.eq_dec rne (2 ^ 53)) as [Hc53 | Hn53].
    + rewrite Hc53, shr_fexp_carry by assumption. cbn [shr_m].
      specialize (Hcarry Hc53).
      change (2 ^ 52) with (Zpos 4503599627370496).
      replace (e1 + 1 <=? emax - prec) with true
        by (symmetry; apply Z.leb_le; unfold emax, prec; lia).
      eexists _, _. split; [reflexivity |]. split; [lia |].
      replace (e1 + 1 - E) with (Z.succ n1) by lia.
      rewrite Z.pow_succ_r by lia. rewrite Hc53 in Hv.
      change (2 ^ 53) with 9007199254740992 in *. lia.
    + destruct rne as [| r |] eqn:Er; try lia.
      rewrite shr_fexp_small by (try assumption; lia). cbn [shr_m].
      replace (e1 <=? emax - prec) with true
        by (symmetry; apply Z.leb_le; unfold emax, prec; lia).
      eexists _, _. split; [reflexivity |]. split; [lia |].
      fold n1. exact Hv.
Qed.

Lemma of_Z_1 : of_Z 1 = S754_finite false 4503599627370496 (-52).
Proof. vm_compute. reflexivity. Qed.

Lemma ltb_finite_pos (m q : positive) (e f : Z) :
  SFltb (S754_finite false m e) (S754_finite false q f) = true ->
  e < f \/ (e = f /\ Zpos m < Zpos q).
Proof.
  unfold SFltb, SFcompare.
  destruct (Z.compare_spec e f) as [He | He | He]; try discriminate.
  - destruct (Pos.compare_cont Eq m q) eqn:Hc; try discriminate.
    intros _. right. split; [assumption |]. exact Hc.
  - intros _. now left.
Qed.

Lemma unit_interval_cases (r : number) :
  unit_interval r ->
  (exists s, r = S754_zero s) \/
  (exists m e, r = S754_finite false m e /\ -1074 <= e <= -53 /\
               Zpos m < 2 ^ 53 /\ (e = -1074 \/ 2 ^ 52 <= Zpos m)).
Proof.
  intros (Hv & Hle & Hlt). rewrite of_Z_1 in Hlt.
  destruct r as [s | s | | s m e].
  - left. now exists s.
  - destruct s; discriminate.
  - discriminate.
  - right. destruct s; [discriminate |]. exists m, e. split; [reflexivity |].
    unfold valid, valid_binary, bounded, canonical_mantissa in Hv.
    apply andb_prop in Hv as [Hc _]. apply Z.eqb_eq in Hc. rewrite fexp_eq in Hc.
    pose proof (digits2_bounds m) as [Hlo Hhi].
    assert (Hd : Zpos (digits2_pos m) <= 53) by lia.
    assert (Hm : Zpos m < 2 ^ 53).
    { eapply Z.lt_le_trans; [exact Hhi |]. apply Z.pow_le_mono_r; lia. }
    assert (Hn : e = -1074 \/ 2 ^ 52 <= Zpos m).
    { destruct (Z.eq_dec e (-1074)) as [|Hne]; [now left | right].
      replace (Zpos (digits2_pos m) - 1) with 52 in Hlo by lia. exact Hlo. }
    apply ltb_finite_pos in Hlt. 
    clear Hlo Hhi Hd Hle.
    change (2 ^ 52) with 4503599627370496 in Hn. 
    repeat split; try assumption; lia.
Qed.
Lemma digits_lower (p : positive) (k : Z) :
  0 <= k -> 2 ^ k <= Zpos p -> k < Zpos (digits2_pos p).
Proof.
  intros Hk H. pose proof (digits2_bounds p) as [_ Hhi].
  apply (Z.pow_lt_mono_r_iff 2); lia.
Qed.

(** The product of a number of the unit interval with a constant [c] whose
    exponent is negative stays at or below [B * 2^ec], for any [B] that the
    largest number below one cannot round over. *)
Lemma mul_unit_le (m mc : positive) (e ec B : Z) :
  -1074 <= e <= -53 -> Zpos m < 2 ^ 53 -> (e = -1074 \/ 2 ^ 52 <= Zpos m) ->
  2 ^ 52 <= Zpos mc < 2 ^ 53 -> -1074 <= ec < 0 ->
  2 ^ 52 <= B < 2 ^ 53 ->
  2 * Zpos mc * (2 ^ 53 - 1) < (2 * B + 1) * 2 ^ 53 ->
  mul (S754_finite false m e) (S754_finite false mc ec) = S754_zero false \/
  exists m' e',
    mul (S754_finite false m e) (S754_finite false mc ec) = S754_finite false m' e' /\
    e + ec <= e' <= ec /\ Zpos m' * 2 ^ (e' - (e + ec)) <= B * 2 ^ (- e).
Proof.
  intros He Hm Hn Hmc Hec HB Hval.
  unfold mul, SFmul. cbn [xorb].
  replace (- e) with (ec - (e + ec)) by lia.
  apply round_aux_le.
  - rewrite fexp_eq.
    destruct Hn as [-> | Hn]; [lia |].
    assert (2 ^ 104 <= Zpos (m * mc)).
    { rewrite Pos2Z.inj_mul. change (2 ^ 104) with (2 ^ 52 * 2 ^ 52).
      apply Z.mul_le_mono_nonneg; lia. }
    pose proof (digits_lower (m * mc) 104 ltac:(lia) ltac:(assumption)). lia.
  - left. lia.
  - lia.
  - lia.
  - replace (ec - (e + ec)) with (- e) by lia.
    assert (H53 : 2 ^ 53 <= 2 ^ (- e)) by (apply Z.pow_le_mono_r; lia).
    rewrite Pos2Z.inj_mul.
    change (2 ^ 52) with 4503599627370496 in *.
    change (2 ^ 53) with 9007199254740992 in *. nia.
Qed.

Lemma floor_mul_unit (r : number) (mc : positive) (ec B : Z) :
  unit_interval r ->
  2 ^ 52 <= Zpos mc < 2 ^ 53 -> -1074 <= ec < 0 ->
  2 ^ 52 <= B < 2 ^ 53 ->
  2 * Zpos mc * (2 ^ 53 - 1) < (2 * B + 1) * 2 ^ 53 ->
  exists q, 0 <= q <= B / 2 ^ (- ec) /\
    (Math_floor (mul r (S754_finite false mc ec)) = of_Z q \/
     (q = 0 /\ Math_floor (mul r (S754_finite false mc ec)) = S754_zero true)).
Proof.
  intros Hr Hmc Hec HB Hval.
  assert (Hd : 0 < 2 ^ (- ec)) by (apply Z.pow_pos_nonneg; lia).
  assert (H0 : 0 <= B / 2 ^ (- ec)) by (apply Z.div_pos; lia).
  destruct (unit_interval_cases r Hr) as [[s ->] | (m & e & -> & He & Hm & Hn)].
  - exists 0. split; [lia |]. destruct s; [right | left]; now split.
  - destruct (mul_unit_le m mc e ec B He Hm Hn Hmc Hec HB Hval)
      as [-> | (m' & e' & -> & He' & Hv)].
    + exists 0. split; [lia |]. now left.
    + exists (Zpos m' / 2 ^ (- e')). cbn [Math_floor].
      replace (0 <=? e') with false by (symmetry; apply Z.leb_gt; lia).
      cbn [cond_Zopp]. split; [| now left].
      assert (Ha : 0 < 2 ^ (- e')) by (apply Z.pow_pos_nonneg; lia).
      assert (Hb : 0 < 2 ^ (e' - (e + ec))) by (apply Z.pow_pos_nonneg; lia).
      assert (Hc : 0 < 2 ^ (- e)) by (apply Z.pow_pos_nonneg; lia).
      split; [apply Z.div_pos; lia |].
      apply Z.div_le_lower_bound; [assumption |].
      pose proof (Z.mul_div_le (Zpos m') (2 ^ (- e')) Ha) as Hq.
      set (q := Zpos m' / 2 ^ (- e')) in *.
      assert (Hq0 : 0 <= q) by (apply Z.div_pos; lia).
      assert (Hpow : 2 ^ (- e') * 2 ^ (e' - (e + ec)) = 2 ^ (- e) * 2 ^ (- ec)).
      { rewrite <- !Z.pow_add_r by lia. f_equal. lia. }
      apply (Z.mul_le_mono_pos_l _ _ (2 ^ (- e))); [assumption |].
      rewrite Z.mul_assoc, <- Hpow.
      transitivity (Zpos m' * 2 ^ (e' - (e + ec))); [| lia].
      rewrite <- Z.mul_assoc, (Z.mul_comm (2 ^ (e' - (e + ec))) q), Z.mul_assoc.
      apply Z.mul_le_mono_nonneg_r; lia.
Qed.

(** The number of an integer below [2^53] is that integer, exactly. *)
Lemma Pos_iter_xO (p d : positive) : Zpos (Pos.iter xO p d) = Zpos p * 2 ^ Zpos d.
Proof.
  rewrite <- Z.shiftl_mul_pow2 by lia. cbn [Z.shiftl].
  apply (Pos.iter_swap_gen _ _ Zpos xO (Z.mul 2)). reflexivity.
Qed.

Lemma round_aux_exact (m : positive) (e : Z) :
  -1074 <= e <= 971 -> Zpos m < 2 ^ 53 ->
  binary_round_aux prec emax false (Zpos m) e loc_Exact = S754_finite false m e.
Proof.
  intros He Hm. unfold binary_round_aux.
  rewrite shr_fexp_small by lia. cbn [shr_m loc_of_shr_record round_nearest_even].
  rewrite shr_fexp_small by lia. cbn [shr_m].
  replace (e <=? emax - prec) with true
    by (symmetry; apply Z.leb_le; unfold emax, prec; lia).
  reflexivity.
Qed.

Lemma of_Z_pos (p : positive) :
  Zpos p < 2 ^ 53 ->
  exists m e, of_Z (Zpos p) = S754_finite false m e /\ -52 <= e <= 0 /\
              Zpos m = Zpos p * 2 ^ (- e).
Proof.
  intros Hp. unfold of_Z, binary_normalize, binary_round.
  rewrite fexp_eq. pose proof (digits2_bounds p) as [Hlo Hhi].
  pose proof (digits_le_53 p Hp) as Hd.
  assert (1 <= Zpos (digits2_pos p)) by lia.
  replace (Z.max (Zpos (digits2_pos p) + 0 - 53) (-1074))
    with (Zpos (digits2_pos p) - 53) by lia.
  unfold shl_align.
  destruct (Zpos (digits2_pos p) - 53 - 0) as [| d | d] eqn:Hdd; try lia.
  - rewrite round_aux_exact by lia.
    exists p, 0. repeat split; try lia.
  - assert (Hmz : Zpos (Pos.iter xO p d) < 2 ^ 53).
    { rewrite Pos_iter_xO.
      replace 53 with (Zpos (digits2_pos p) + Zpos d) by lia.
      rewrite Z.pow_add_r by lia.
      apply Z.mul_lt_mono_pos_r; [apply Z.pow_pos_nonneg; lia | assumption]. }
    rewrite round_aux_exact by lia.
    eexists _, _. split; [reflexivity |]. split; [lia |].
    rewrite Pos_iter_xO. f_equal. f_equal. lia.
Qed.

Lemma to_Z_of_Z (q : Z) : 0 <= q < 2 ^ 53 -> to_Z (of_Z q) = q.
Proof.
  intros Hq. destruct q as [| p | p]; [reflexivity | | lia].
  destruct (of_Z_pos p) as (m & e & -> & He & Hm); [lia |].
  cbn [to_Z cond_Zopp]. rewrite Hm.
  destruct (Z.leb_spec 0 e).
  - replace e with 0 by lia. cbn. lia.
  - apply Z.div_mul. apply Z.pow_nonzero; lia.
Qed.

End Rounding.

(** ** Integers, digits and padding *)

Module Digits.

Lemma number_eqb_eq (x y : number) : number_eqb x y = true -> x = y.
Proof.
  destruct x as [s | s | | s m e], y as [t | t | | t n f]; cbn; try discriminate;
    try reflexivity.
  - intros H. apply Bool.eqb_prop in H. now subst.
  - intros H. apply Bool.eqb_prop in H. now subst.
  - intros H. apply andb_prop in H as [H He]. apply andb_prop in H as [Hs Hm].
    apply Bool.eqb_prop in Hs. apply Pos.eqb_eq in Hm. apply Z.eqb_eq in He.
    now subst.
Qed.

(** Adding one to an integer below one thousand is exact. *)
Lemma add_one_small (q : Z) :
  0 <= q <= 999 -> add (of_Z q) (of_Z 1) = of_Z (q + 1).
Proof.
  intros Hq.
  assert (Hall : forallb (fun k => number_eqb (add (of_Z (Z.of_nat k)) (of_Z 1))
                                     (of_Z (Z.of_nat k + 1)))
                         (seq 0 1000) = true) by (vm_compute; reflexivity).
  rewrite forallb_forall in Hall.
  specialize (Hall (Z.to_nat q)).
  rewrite Z2Nat.id in Hall by lia.
  apply number_eqb_eq, Hall, in_seq. lia.
Qed.

Lemma is_digit_digit (n : Z) : Str.is_digit (Str.digit (n mod 10)) = true.
Proof.
  pose proof (Z.mod_pos_bound n 10 ltac:(lia)) as H.
  assert (Hc : In (n mod 10) [0; 1; 2; 3; 4; 5; 6; 7; 8; 9]) by (cbn; lia).
  revert Hc. generalize (n mod 10). intros d Hd.
  cbn in Hd. intuition (subst; reflexivity).
Qed.

Lemma all_digits_fuel (fuel : nat) (n : Z) (acc : string) :
  Str.all_digits acc = true -> Str.all_digits (Str.digits_fuel fuel n acc) = true.
Proof.
  revert n acc. induction fuel as [| fuel IH]; intros n acc Hacc; cbn [Str.digits_fuel].
  - cbn [Str.all_digits]. now rewrite is_digit_digit.
  - destruct (n / 10 =? 0).
    + cbn [Str.all_digits]. now rewrite is_digit_digit.
    + apply IH. cbn [Str.all_digits]. now rewrite is_digit_digit.
Qed.

Lemma length_digits_fuel (fuel : nat) (n : Z) (acc : string) (k : nat) :
  0 <= n < 10 ^ Z.of_nat (S k) ->
  (String.length (Str.digits_fuel fuel n acc) <= S k + String.length acc)%nat.
Proof.
  revert n acc k. induction fuel as [| fuel IH]; intros n acc k Hn; cbn [Str.digits_fuel].
  - cbn [String.length]. lia.
  - destruct (Z.eqb_spec (n / 10) 0) as [Hz | Hz].
    + cbn [String.length]. lia.
    + destruct k as [| k].
      * exfalso. apply Hz. apply Z.div_small. change (10 ^ Z.of_nat 1) with 10 in Hn. lia.
      * specialize (IH (n / 10) (String (Str.digit (n mod 10)) acc) k).
        cbn [String.length] in IH.
        assert (0 <= n / 10 < 10 ^ Z.of_nat (S k)).
        { split; [apply Z.div_pos; lia |].
          apply Z.div_lt_upper_bound; [lia |].
          rewrite <- Z.pow_succ_r by lia. rewrite <- Nat2Z.inj_succ. lia. }
        specialize (IH ltac:(assumption)). lia.
Qed.

Lemma length_append (s t : string) :
  String.length (String.append s t) = (String.length s + String.length t)%nat.
Proof.
  induction s as [| c s IH]; [reflexivity |].
  change (String.append (String c s) t) with (String c (String.append s t)).
  cbn [String.length]. now rewrite IH.
Qed.

Lemma length_repeat_char (c : ascii) (n : nat) : String.length (Str.repeat_char c n) = n.
Proof. induction n; cbn; congruence. Qed.

Lemma all_digits_append (s t : string) :
  Str.all_digits (String.append s t) = Str.all_digits s && Str.all_digits t.
Proof.
  induction s as [| c s IH]; [reflexivity |].
  change (String.append (String c s) t) with (String c (String.append s t)).
  cbn [Str.all_digits]. now rewrite IH, andb_assoc.
Qed.

Lemma all_digits_repeat_zero (n : nat) : Str.all_digits (Str.repeat_char "0" n) = true.
Proof. induction n; cbn; [reflexivity | assumption]. Qed.

(** [padStart] fills up to the width and never cuts. *)
Lemma length_padStart (n : nat) (c : ascii) (s : string) :
  String.length (Str.padStart n c s) = Nat.max n (String.length s).
Proof. unfold Str.padStart. rewrite length_append, length_repeat_char. lia. Qed.

Lemma digits_14 (q : Z) :
  0 <= q < 10 ^ 14 ->
  let s := Str.padStart 14 "0" (Str.digits q) in
  String.length s = 14%nat /\ Str.all_digits s = true.
Proof.
  intros Hq s. subst s. split.
  - rewrite length_padStart.
    pose proof (length_digits_fuel (Z.to_nat (Z.log2 q)) q "" 13 Hq) as H.
    cbn [String.length] in H. unfold Str.digits. lia.
  - unfold Str.padStart. rewrite all_digits_append, all_digits_repeat_zero.
    apply all_digits_fuel. reflexivity.
Qed.

End Digits.

(** ** [getNextInvoiceNumber] and [generateSimulatedCAE] *)

Ltac zconst := vm_compute; intuition congruence.

Lemma of_Z_1000 : of_Z 1000 = S754_finite false 8796093022208000 (-43).
Proof. vm_compute. reflexivity. Qed.

Lemma of_Z_cae : of_Z 99999999999999 = S754_finite false 6399999999999936 (-6).
Proof. vm_compute. reflexivity. Qed.

(** Claim C10. For a [Math.random()] of the unit interval,
    [getNextInvoiceNumber] returns an integer between 1 and 1000, the same
    one whatever document kind it is given: the argument is not read. *)
Theorem getNextInvoiceNumber_range (env : Env) :
  unit_interval (Math_random env) ->
  exists n, 1 <= n <= 1000 /\
    forall tipoComprobante,
      run (AFIPService.getNextInvoiceNumber env tipoComprobante)
      = (Return (of_Z n), [Call "getNextInvoiceNumber"]).
Proof.
  intros Hr.
  destruct (Rounding.floor_mul_unit (Math_random env) 8796093022208000 (-43)
              (8796093022208000 - 1) Hr) as (q & Hq & Hfloor);
    [zconst | zconst | zconst | zconst |].
  change (_ / _) with 999 in Hq.
  rewrite <- of_Z_1000 in Hfloor.
  exists (q + 1). split; [lia |]. intros tipo.
  unfold AFIPService.getNextInvoiceNumber, run, bind, log, ret. cbn [app].
  do 2 f_equal.
  destruct Hfloor as [-> | [-> ->]].
  - now apply Digits.add_one_small.
  - reflexivity.
Qed.

Lemma getNextInvoiceNumber_range_witness :
  exists n, 1 <= n <= 1000 /\
    forall tipoComprobante,
      run (AFIPService.getNextInvoiceNumber Sample.env tipoComprobante)
      = (Return (of_Z n), [Call "getNextInvoiceNumber"]).
Proof.
  apply (getNextInvoiceNumber_range Sample.env).
  repeat split; vm_compute; reflexivity.
Defined.

(** The simulated authorization code has fourteen characters, all digits. *)
Lemma simulated_cae (env : Env) :
  unit_interval (Math_random env) ->
  let code := Str.padStart 14 "0"
                (AFIPService.Number_toString
                   (Math_floor (mul (Math_random env) (of_Z 99999999999999)))) in
  String.length code = 14%nat /\ Str.all_digits code = true.
Proof.
  intros Hr.
  destruct (Rounding.floor_mul_unit (Math_random env) 6399999999999936 (-6)
              6399999999999936 Hr) as (q & Hq & Hfloor);
    [zconst | zconst | zconst | zconst |].
  change (_ / _) with 99999999999999 in Hq.
  rewrite <- of_Z_cae in Hfloor.
  assert (Hstr : AFIPService.Number_toString
                   (Math_floor (mul (Math_random env) (of_Z 99999999999999)))
                 = Str.digits q).
  { destruct Hfloor as [-> | [-> ->]]; [| reflexivity].
    destruct q as [| p | p]; [reflexivity | | lia].
    pose proof (Rounding.to_Z_of_Z (Zpos p) ltac:(change (2 ^ 53) with 9007199254740992; lia)) as Hz.
    destruct (Rounding.of_Z_pos p ltac:(change (2 ^ 53) with 9007199254740992; lia))
      as (m & e & Hm & _).
    rewrite Hm in *. unfold AFIPService.Number_toString. rewrite Hz. reflexivity. }
  cbn zeta. rewrite Hstr. apply Digits.digits_14. lia.
Qed.

(** ** The calendar of [setDate] *)

Ltac dlia := Z.to_euclidean_division_equations; lia.

(** [MakeDay] on the year and the month of a day, with the day of the month
    moved on by [k], is that day moved on by [k]: a date beyond the end of
    the month runs into the next months. *)
Lemma MakeDay_civil (days k : Z) :
  let '(y, m, d) := JSDate.civil_from_days days in
  JSDate.MakeDay y m (d + k) = days + k.
Proof.
  unfold JSDate.civil_from_days. cbv zeta.
  set (z := days + 719468).
  set (era := z / 146097).
  set (doe := z - era * 146097).
  assert (Hdoe : 0 <= doe <= 146096) by (subst doe era; dlia).
  set (yoe := (doe - doe / 1460 + doe / 36524 - doe / 146096) / 365).
  assert (Hyoe : 0 <= yoe <= 399) by (subst yoe; clearbody doe; clear - Hdoe; dlia).
  set (doy := doe - (365 * yoe + yoe / 4 - yoe / 100)).
  assert (Hdoy : 0 <= doy <= 365).
  { subst doy yoe. clearbody doe. clear - Hdoe. dlia. }
  set (mp := (5 * doy + 2) / 153).
  assert (Hmp : 0 <= mp <= 11) by (subst mp; clearbody doy; clear - Hdoy; dlia).
  unfold JSDate.MakeDay, JSDate.days_from_civil. cbv zeta.
  assert (Hera : (yoe + era * 400) / 400 = era).
  { rewrite Z.div_add by lia. rewrite Z.div_small by lia. lia. }
  destruct (mp <? 10) eqn:E1; [apply Z.ltb_lt in E1 | apply Z.ltb_ge in E1].
  - replace (mp + 3 <=? 2) with false by (symmetry; apply Z.leb_gt; lia).
    replace (2 <? mp + 3) with true by (symmetry; apply Z.ltb_lt; lia).
    rewrite Hera. replace (mp + 3 - 3) with mp by lia.
    replace (yoe + era * 400 - era * 400) with yoe by lia.
    subst doy doe z. lia.
  - replace (mp - 9 <=? 2) with true by (symmetry; apply Z.leb_le; lia).
    replace (2 <? mp - 9) with false by (symmetry; apply Z.ltb_ge; lia).
    replace (yoe + era * 400 + 1 - 1) with (yoe + era * 400) by lia.
    rewrite Hera. replace (mp - 9 + 9) with mp by lia.
    replace (yoe + era * 400 - era * 400) with yoe by lia.
    subst doy doe z. lia.
Qed.

(** [setDate(getDate() + k)] moves the local time on by [k] days of 24
    hours and goes back to UTC with the offset found there. *)
Lemma setDate_getDate (tza : Z -> bool -> Z) (tv k : Z) :
  JSDate.setDate tza tv (JSDate.getDate tza tv + k)
  = JSDate.TimeClip (JSDate.UTC tza (JSDate.LocalTime tza tv + k * JSDate.msPerDay)).
Proof.
  unfold JSDate.setDate, JSDate.getDate.
  pose proof (MakeDay_civil (JSDate.Day (JSDate.LocalTime tza tv)) k) as H.
  destruct (JSDate.civil_from_days _) as [[y m] d].
  rewrite H. do 2 f_equal.
  unfold JSDate.MakeDate, JSDate.Day, JSDate.TimeWithinDay, JSDate.msPerDay.
  dlia.
Qed.

Lemma expiry_clip (env : Env) :
  expiry env =
  match JSDate.TimeClip (ten_days_later env) with
  | Some tv => Return (JSDate.iso_date (JSDate.Day tv))
  | None => Throw (ErrorObject "Invalid time value")
  end.
Proof. unfold expiry. now rewrite setDate_getDate. Qed.

Lemma expiry_valid (env : Env) :
  valid_time (ten_days_later env) ->
  expiry env = Return (JSDate.iso_date (JSDate.Day (ten_days_later env))).
Proof.
  intros H. rewrite expiry_clip. unfold JSDate.TimeClip.
  replace (_ <? _) with false; [reflexivity |].
  symmetry. apply Z.ltb_ge. exact H.
Qed.

Lemma expiry_invalid (env : Env) :
  ~ valid_time (ten_days_later env) ->
  expiry env = Throw (ErrorObject "Invalid time value").
Proof.
  intros H. rewrite expiry_clip. unfold JSDate.TimeClip.
  replace (_ <? _) with true; [reflexivity |].
  symmetry. apply Z.ltb_lt. unfold valid_time in H. lia.
Qed.

Lemma expiry_Return (env : Env) (date : string) :
  expiry env = Return date ->
  valid_time (ten_days_later env) /\
  date = JSDate.iso_date (JSDate.Day (ten_days_later env)).
Proof.
  rewrite expiry_clip. unfold JSDate.TimeClip, valid_time.
  destruct (_ <? _) eqn:E; [discriminate |].
  apply Z.ltb_ge in E. intros [= <-]. now split.
Qed.

Lemma expiry_Throw (env : Env) (e : thrown) :
  expiry env = Throw e ->
  ~ valid_time (ten_days_later env) /\ e = ErrorObject "Invalid time value".
Proof.
  rewrite expiry_clip. unfold JSDate.TimeClip, valid_time.
  destruct (_ <? _) eqn:E; [| discriminate].
  apply Z.ltb_lt in E. intros [= <-]. split; [lia | reflexivity].
Qed.

(** In a zone whose offset is the same at both ends, the day ten local days
    later is the UTC day of the clock plus ten. *)
Lemma steady_day (env : Env) :
  steady_zone env ->
  JSDate.Day (ten_days_later env) = Date_now env / JSDate.msPerDay + 10.
Proof.
  unfold steady_zone, ten_days_later, JSDate.UTC, JSDate.Day. intros <-.
  unfold JSDate.LocalTime.
  replace (Date_now env + LocalTZA env (Date_now env) true + 10 * JSDate.msPerDay
           - LocalTZA env (Date_now env) true)
    with (Date_now env + 10 * JSDate.msPerDay) by lia.
  unfold JSDate.msPerDay. rewrite Z.div_add by lia. reflexivity.
Qed.

(** ** [sendInvoice] *)

(** [JSON.stringify] of the payload object always yields a document. *)
Lemma stringify_qrData (config : AFIPConfig) (inv : InvoiceData) (code : string) :
  exists fields, JSON_stringify (AFIPService.qrData config inv code) = Some (JObj fields).
Proof. unfold AFIPService.qrData. cbn [JSON_stringify]. eexists. reflexivity. Qed.

(** What a run of [sendInvoice] returns and which steps it enters. *)
Lemma sendInvoice_run (env : Env) (config : AFIPConfig) (inv : InvoiceData) :
  run (AFIPService.sendInvoice env config inv) =
  if incomplete inv
  then (Return (AFIPService.failure "Datos incompletos: se requiere CUIT del cliente e items"),
        [Call "sendInvoice"])
  else
    match buildObject env (AFIPService.xmlData config inv) with
    | Throw e =>
        (Return (AFIPService.failure
                   (String.append "Error al procesar la factura: "
                      (AFIPService.error_message e))),
         [Call "sendInvoice"; Call "generateXMLRequest";
          ConsoleError "Error en AFIP Service:"])
    | Return _ =>
        match expiry env with
        | Throw e =>
            (Return (AFIPService.failure
                       (String.append "Error al procesar la factura: "
                          (AFIPService.error_message e))),
             date_trace ++ [ConsoleError "Error en AFIP Service:"])
        | Return date =>
            match JSON_stringify (AFIPService.qrData config inv (simulated_code env)) with
            | Some qrString =>
                match toDataURL env qrString with
                | Return qr =>
                    (Return (mkResponse true (Some (simulated_code env)) (Some date)
                               (Some (numeroComprobante inv)) (Some qr) None
                               (Some ["Comprobante autorizado correctamente"])),
                     full_trace)
                | Throw e =>
                    (Return (AFIPService.failure
                               (String.append "Error al procesar la factura: "
                                  (AFIPService.error_message e))),
                     full_trace ++ [ConsoleError "Error en AFIP Service:"])
                end
            | None =>
                (Return (AFIPService.failure
                           "Error al procesar la factura: String required as first argument"),
                 full_trace ++ [ConsoleError "Error en AFIP Service:"])
            end
        end
    end.
Proof.
  unfold AFIPService.sendInvoice, run, try_catch, bind, log, ret.
  fold (incomplete inv). cbn [app].
  destruct (incomplete inv); [reflexivity |].
  unfold AFIPService.generateXMLRequest, AFIPService.signXML,
    AFIPService.generateSimulatedCAE, AFIPService.getFechaVencimientoCAE,
    AFIPService.generateQRCode, bind, log, ret, lift. cbn [app].
  destruct (buildObject env (AFIPService.xmlData config inv)) as [xml | e];
    [| reflexivity].
  fold (simulated_code env). unfold expiry. cbv zeta.
  destruct (JSDate.setDate _ _ _) as [tv |]; [| reflexivity].
  destruct (JSON_stringify (AFIPService.qrData config inv (simulated_code env)))
    as [j |]; [| reflexivity].
  destruct (toDataURL env j); reflexivity.
Qed.

(** Claim C4. [sendInvoice] returns a result for every invoice, whatever the
    libraries do, and never throws; the result carries a code exactly when
    it is a success and an error text exactly when it is not. *)
Theorem sendInvoice_never_throws (env : Env) (config : AFIPConfig) (inv : InvoiceData) :
  exists r,
    fst (run (AFIPService.sendInvoice env config inv)) = Return r /\
    (is_Some (cae r) <-> success r = true) /\
    (is_Some (error r) <-> success r = false).
Proof.
  rewrite sendInvoice_run.
  destruct (incomplete inv);
    [| destruct (buildObject env _);
       [destruct (expiry env);
        [destruct (JSON_stringify _); [destruct (toDataURL env _) |] |] |]];
    (eexists; split; [reflexivity |]); cbn;
    (split; split; intros H; try discriminate H; try (now eexists);
     destruct H as [? H]; discriminate H).
Qed.

(** Claim C6, as amended. With no document number (absent or empty) or with
    no item, [sendInvoice] answers with the failure "Datos incompletos" and
    enters none of the later steps: the trace holds its own entry only. *)
Theorem sendInvoice_incomplete (env : Env) (config : AFIPConfig) (inv : InvoiceData) :
  numeroDocumento (cliente inv) = None \/ numeroDocumento (cliente inv) = Some ""
  \/ items inv = [] ->
  run (AFIPService.sendInvoice env config inv)
  = (Return (mkResponse false None None None None
               (Some "Datos incompletos: se requiere CUIT del cliente e items") None),
     [Call "sendInvoice"]).
Proof.
  intros H. rewrite sendInvoice_run.
  replace (incomplete inv) with true; [reflexivity |].
  unfold incomplete. destruct H as [-> | [-> | ->]]; try reflexivity.
  cbn. now rewrite orb_true_r.
Qed.

Lemma sendInvoice_incomplete_witness :
  run (AFIPService.sendInvoice Sample.env Sample.config
         (mkInvoice "factura" (of_Z 1) (of_Z 7) "2024-01-01" Sample.cliente []
            (of_Z 200) (of_Z 42) (of_Z 242) None))
  = (Return (mkResponse false None None None None
               (Some "Datos incompletos: se requiere CUIT del cliente e items") None),
     [Call "sendInvoice"]).
Proof. apply sendInvoice_incomplete. right. right. reflexivity. Defined.

(** Claim C6 as stated fails: a recipient with an empty legal name and a
    document number is accepted, and every step is entered. *)
Lemma sendInvoice_accepts_empty_name :
  razonSocial Sample.no_name = Some "" /\
  exists r,
    run (AFIPService.sendInvoice Sample.env Sample.config
           (Sample.scenario "factura" "2024-01-01" Sample.no_name))
    = (Return r, full_trace) /\
    success r = true /\ cae r = Some "49999999999999".
Proof. split; [reflexivity |]. eexists. split; [vm_compute; reflexivity |]. now split. Qed.

(** The own properties of [tipos]. *)
Lemma tipos_lookup (tipo : string) :
  AFIPService.tipos !! tipo =
    if String.eqb tipo "factura" then Some 1
    else if String.eqb tipo "nota_credito" then Some 2
    else if String.eqb tipo "nota_debito" then Some 3
    else None.
Proof.
  unfold AFIPService.tipos.
  destruct (String.eqb_spec tipo "factura") as [-> | H1]; [reflexivity |].
  rewrite lookup_insert_ne by congruence.
  destruct (String.eqb_spec tipo "nota_credito") as [-> | H2]; [reflexivity |].
  rewrite lookup_insert_ne by congruence.
  destruct (String.eqb_spec tipo "nota_debito") as [-> | H3]; [reflexivity |].
  now rewrite lookup_singleton_ne by congruence.
Qed.

(** A kind that names no inherited property maps to a number that JSON
    prints as it is. *)
Lemma getTipoComprobante_number (tipo : string) :
  not_inherited tipo = true ->
  exists x, AFIPService.getTipoComprobante tipo = JSNumber x /\ json_safe x = true.
Proof.
  intros H. unfold AFIPService.getTipoComprobante, AFIPService.tipos_get.
  rewrite tipos_lookup.
  destruct (String.eqb tipo "factura"); [eexists; split; reflexivity |].
  destruct (String.eqb tipo "nota_credito"); [eexists; split; reflexivity |].
  destruct (String.eqb tipo "nota_debito"); [eexists; split; reflexivity |].
  unfold not_inherited in H.
  destruct (AFIPService.inherited tipo); try discriminate H.
  eexists; split; reflexivity.
Qed.

(** Claim C5, as amended. A kind outside the table that names no inherited
    property maps to the code 1, and nothing in the result tells: the
    remarks of a success are the one fixed message, and a failure has none. *)
Theorem fallback_is_silent (env : Env) (config : AFIPConfig) (inv : InvoiceData)
    (r : AFIPResponse) :
  AFIPService.tipos !! tipoComprobante inv = None ->
  not_inherited (tipoComprobante inv) = true ->
  fst (run (AFIPService.sendInvoice env config inv)) = Return r ->
  AFIPService.getTipoComprobante (tipoComprobante inv) = JSNumber (of_Z 1) /\
  resp_observaciones r =
    if success r then Some ["Comprobante autorizado correctamente"] else None.
Proof.
  intros Hown Hinh Hrun. split.
  - unfold AFIPService.getTipoComprobante, AFIPService.tipos_get. rewrite Hown.
    unfold not_inherited in Hinh.
    destruct (AFIPService.inherited (tipoComprobante inv)); try discriminate Hinh.
    reflexivity.
  - rewrite sendInvoice_run in Hrun.
    destruct (incomplete inv);
      [| destruct (buildObject env _);
         [destruct (expiry env);
          [destruct (JSON_stringify _); [destruct (toDataURL env _) |] |] |]];
      cbn in Hrun; injection Hrun as <-; reflexivity.
Qed.

Lemma fallback_is_silent_witness :
  AFIPService.getTipoComprobante "recibo" = JSNumber (of_Z 1) /\
  Some ["Comprobante autorizado correctamente"]
  = if true then Some ["Comprobante autorizado correctamente"] else None.
Proof.
  apply (fallback_is_silent Sample.env Sample.config
           (Sample.scenario "recibo" "2024-01-01" Sample.cliente)
           (mkResponse true (Some "49999999999999") (Some "2024-03-25")
              (Some (of_Z 7)) (Some "data:image/png;base64,") None
              (Some ["Comprobante autorizado correctamente"])));
    vm_compute; reflexivity.
Defined.

(** Claim C5 as stated fails: the unknown kind "recibo" is authorized with
    the code 1, and the run and its result are those of a "factura", with no
    remark about the fallback. *)
Lemma fallback_not_remarked :
  AFIPService.tipos !! "recibo" = None /\
  AFIPService.getTipoComprobante "recibo" = JSNumber (of_Z 1) /\
  run (AFIPService.sendInvoice Sample.env Sample.config
         (Sample.scenario "recibo" "2024-01-01" Sample.cliente))
  = run (AFIPService.sendInvoice Sample.env Sample.config
           (Sample.scenario "factura" "2024-01-01" Sample.cliente)) /\
  exists r,
    fst (run (AFIPService.sendInvoice Sample.env Sample.config
                (Sample.scenario "recibo" "2024-01-01" Sample.cliente))) = Return r /\
    success r = true /\
    resp_observaciones r = Some ["Comprobante autorizado correctamente"].
Proof.
  split; [vm_compute; reflexivity |]. split; [vm_compute; reflexivity |].
  split; [vm_compute; reflexivity |].
  eexists. split; [vm_compute; reflexivity |]. now split.
Qed.

(** Claim C8, as amended. For an authorized submission whose numbers
    (configured sales point, sequence number, total) are finite and not
    [-0], and whose kind names no inherited property, the text handed to the
    QR library is the JSON of thirteen fields in the order [ver], [fecha],
    [cuit], [ptoVta], [tipoCmp], [nroCmp], [importe], [moneda], [ctz],
    [tipoDocRec], [nroDocRec], [tipoCodAut] (always "E") and [codAut], and
    parsing it gives back these fields, in this order, with the values
    passed in. *)
Theorem qr_payload_round_trip (env : Env) (config : AFIPConfig) (inv : InvoiceData)
    (r : AFIPResponse) :
  fst (run (AFIPService.sendInvoice env config inv)) = Return r ->
  success r = true ->
  json_safe (cfg_puntoVenta config) = true ->
  json_safe (numeroComprobante inv) = true ->
  json_safe (total inv) = true ->
  not_inherited (tipoComprobante inv) = true ->
  exists code doc tipoCmp qrString qr,
    cae r = Some code /\ qrCode r = Some qr /\
    numeroDocumento (cliente inv) = Some doc /\
    AFIPService.getTipoComprobante (tipoComprobante inv) = JSNumber tipoCmp /\
    JSON_stringify (AFIPService.qrData config inv code) = Some qrString /\
    toDataURL env qrString = Return qr /\
    JSON_parse qrString = AFIPService.qrData config inv code /\
    AFIPService.qrData config inv code =
      JSObject [ ("ver", JSNumber (of_Z 1));
                 ("fecha", JSString (fecha inv));
                 ("cuit", JSString (cuit config));
                 ("ptoVta", JSNumber (cfg_puntoVenta config));
                 ("tipoCmp", JSNumber tipoCmp);
                 ("nroCmp", JSNumber (numeroComprobante inv));
                 ("importe", JSNumber (total inv));
                 ("moneda", JSString "PES");
                 ("ctz", JSNumber (of_Z 1));
                 ("tipoDocRec", JSNumber (of_Z 80));
                 ("nroDocRec", JSString doc);
                 ("tipoCodAut", JSString "E");
                 ("codAut", JSString code) ].
Proof.
  intros Hrun Hok Hpv Hnro Htot Htipo.
  rewrite sendInvoice_run in Hrun.
  destruct (incomplete inv) eqn:Hinc; [injection Hrun as <-; discriminate Hok |].
  destruct (buildObject env _); [| injection Hrun as <-; discriminate Hok].
  destruct (expiry env); [| injection Hrun as <-; discriminate Hok].
  destruct (JSON_stringify _) as [j |] eqn:Hj; [| injection Hrun as <-; discriminate Hok].
  destruct (toDataURL env j) as [qr | e] eqn:Hqr; [| injection Hrun as <-; discriminate Hok].
  cbn in Hrun. injection Hrun as <-. cbn [cae qrCode].
  destruct (getTipoComprobante_number _ Htipo) as (t & Ht & Hts).
  unfold incomplete in Hinc. apply orb_false_elim in Hinc as [Hdoc _].
  destruct (numeroDocumento (cliente inv)) as [doc |] eqn:Hd; [| discriminate Hdoc].
  exists (simulated_code env), doc, t, j, qr.
  assert (Hq : AFIPService.qrData config inv (simulated_code env) =
               JSObject [ ("ver", JSNumber (of_Z 1));
                 ("fecha", JSString (fecha inv));
                 ("cuit", JSString (cuit config));
                 ("ptoVta", JSNumber (cfg_puntoVenta config));
                 ("tipoCmp", JSNumber t);
                 ("nroCmp", JSNumber (numeroComprobante inv));
                 ("importe", JSNumber (total inv));
                 ("moneda", JSString "PES");
                 ("ctz", JSNumber (of_Z 1));
                 ("tipoDocRec", JSNumber (of_Z 80));
                 ("nroDocRec", JSString doc);
                 ("tipoCodAut", JSString "E");
                 ("codAut", JSString (simulated_code env)) ]).
  { unfold AFIPService.qrData. rewrite Ht, Hd. reflexivity. }
  repeat (split; [first [reflexivity | assumption] |]).
  split; [| exact Hq].
  rewrite Hq in Hj |- *. cbn [JSON_stringify] in Hj.
  destruct (cfg_puntoVenta config) as [[|] | | |]; try discriminate Hpv;
    destruct (numeroComprobante inv) as [[|] | | |]; try discriminate Hnro;
    destruct (total inv) as [[|] | | |]; try discriminate Htot;
    destruct t as [[|] | | |]; try discriminate Hts;
    injection Hj as <-; reflexivity.
Qed.

Lemma qr_payload_round_trip_witness :
  exists code doc tipoCmp qrString qr,
    cae Sample.response = Some code /\ qrCode Sample.response = Some qr /\
    numeroDocumento (cliente Sample.invoice) = Some doc /\
    AFIPService.getTipoComprobante (tipoComprobante Sample.invoice) = JSNumber tipoCmp /\
    JSON_stringify (AFIPService.qrData Sample.config Sample.invoice code) = Some qrString /\
    toDataURL Sample.env qrString = Return qr /\
    JSON_parse qrString = AFIPService.qrData Sample.config Sample.invoice code /\
    AFIPService.qrData Sample.config Sample.invoice code =
      JSObject [ ("ver", JSNumber (of_Z 1));
                 ("fecha", JSString (fecha Sample.invoice));
                 ("cuit", JSString (cuit Sample.config));
                 ("ptoVta", JSNumber (cfg_puntoVenta Sample.config));
                 ("tipoCmp", JSNumber tipoCmp);
                 ("nroCmp", JSNumber (numeroComprobante Sample.invoice));
                 ("importe", JSNumber (total Sample.invoice));
                 ("moneda", JSString "PES");
                 ("ctz", JSNumber (of_Z 1));
                 ("tipoDocRec", JSNumber (of_Z 80));
                 ("nroDocRec", JSString doc);
                 ("tipoCodAut", JSString "E");
                 ("codAut", JSString code) ].
Proof.
  apply (qr_payload_round_trip Sample.env Sample.config Sample.invoice Sample.response);
    vm_compute; reflexivity.
Defined.

(** Claim C8 as stated fails: an invoice whose total is [Infinity] is
    authorized, its payload prints [importe] as [null], and parsing the
    payload does not give back the total passed in. *)
Lemma qr_payload_loses_infinity :
  exists r code qrString,
    fst (run (AFIPService.sendInvoice Sample.env Sample.config Sample.infinite_total))
    = Return r /\
    success r = true /\ cae r = Some code /\
    JSON_stringify (AFIPService.qrData Sample.config Sample.infinite_total code)
    = Some qrString /\
    JSON_parse qrString <> AFIPService.qrData Sample.config Sample.infinite_total code /\
    exists before after,
      AFIPService.qrData Sample.config Sample.infinite_total code = JSObject before /\
      JSON_parse qrString = JSObject after /\
      before !! 6%nat = Some ("importe", JSNumber Infinity) /\
      after !! 6%nat = Some ("importe", JSNull).
Proof.
  eexists _, _, _. split; [vm_compute; reflexivity |].
  split; [reflexivity |]. split; [reflexivity |].
  split; [vm_compute; reflexivity |].
  split; [vm_compute; discriminate |].
  eexists _, _. split; [vm_compute; reflexivity |].
  split; [vm_compute; reflexivity |]. split; reflexivity.
Qed.

(** Claim C2, as amended. The invoice of the scenario (one line of 2 units
    at 100 with 21% of tax: net 200, tax 42, total 242), for any kind, date
    and recipient with a document number, is authorized when the XML builder
    answers for its document, the QR library answers for its payload, and
    the instant ten days after the clock is a valid time value: the result
    is a success whose code has fourteen characters, all digits. Its expiry
    date does not depend on the date of the invoice: it is the UTC date of
    the instant ten days after the clock on the local calendar, which is the
    UTC date of the clock plus ten days when the zone has the same offset
    at both ends. *)
Theorem sendInvoice_scenario (env : Env) (config : AFIPConfig) (tipo fecha : string)
    (c : ClienteData) (doc xml : string) (qrString : json) (qr : string) :
  unit_interval (Math_random env) ->
  valid_time (ten_days_later env) ->
  numeroDocumento c = Some doc -> doc <> "" ->
  buildObject env (AFIPService.xmlData config (Sample.scenario tipo fecha c)) = Return xml ->
  JSON_stringify (AFIPService.qrData config (Sample.scenario tipo fecha c)
                    (simulated_code env)) = Some qrString ->
  toDataURL env qrString = Return qr ->
  Page.recompute [Sample.line] = [Sample.line] /\
  Page.calculateTotals [Sample.line] = Page.mkTotals (of_Z 200) (of_Z 42) (of_Z 242) /\
  exists r code,
    run (AFIPService.sendInvoice env config (Sample.scenario tipo fecha c))
    = (Return r, full_trace) /\
    success r = true /\ error r = None /\
    cae r = Some code /\ String.length code = 14%nat /\ Str.all_digits code = true /\
    fechaVencimientoCae r
    = Some (JSDate.iso_date (JSDate.Day (ten_days_later env))) /\
    (steady_zone env ->
     fechaVencimientoCae r
     = Some (JSDate.iso_date (Date_now env / JSDate.msPerDay + 10))).
Proof.
  intros Hr Hv Hdoc Hne Hxml Hj Hqr.
  split; [vm_compute; reflexivity |]. split; [vm_compute; reflexivity |].
  rewrite sendInvoice_run.
  replace (incomplete (Sample.scenario tipo fecha c)) with false.
  2:{ unfold incomplete. cbn. rewrite Hdoc. cbn.
      destruct (String.eqb_spec doc ""); [contradiction | reflexivity]. }
  rewrite Hxml, (expiry_valid env Hv), Hj, Hqr.
  eexists _, _. split; [reflexivity |]. cbn [success error cae fechaVencimientoCae].
  destruct (simulated_cae env Hr) as [Hlen Hdig].
  repeat (split; [first [reflexivity | assumption] |]).
  intros Hz. now rewrite (steady_day env Hz).
Qed.

Lemma sendInvoice_scenario_witness :
  steady_zone Sample.env /\
  Page.recompute [Sample.line] = [Sample.line] /\
  Page.calculateTotals [Sample.line] = Page.mkTotals (of_Z 200) (of_Z 42) (of_Z 242) /\
  exists r code,
    run (AFIPService.sendInvoice Sample.env Sample.config Sample.invoice)
    = (Return r, full_trace) /\
    success r = true /\ error r = None /\
    cae r = Some code /\ String.length code = 14%nat /\ Str.all_digits code = true /\
    fechaVencimientoCae r
    = Some (JSDate.iso_date (JSDate.Day (ten_days_later Sample.env))) /\
    fechaVencimientoCae r
    = Some (JSDate.iso_date (Date_now Sample.env / JSDate.msPerDay + 10)).
Proof.
  split; [reflexivity |].
  destruct (sendInvoice_scenario Sample.env Sample.config "factura" "2024-01-01"
              Sample.cliente "30712345678" "<soap:Envelope/>"
              (JObj [ ("ver", JNum (of_Z 1)); ("fecha", JStr "2024-01-01");
                      ("cuit", JStr "20123456789"); ("ptoVta", JNum (of_Z 1));
                      ("tipoCmp", JNum (of_Z 1)); ("nroCmp", JNum (of_Z 7));
                      ("importe", JNum (of_Z 242)); ("moneda", JStr "PES");
                      ("ctz", JNum (of_Z 1)); ("tipoDocRec", JNum (of_Z 80));
                      ("nroDocRec", JStr "30712345678"); ("tipoCodAut", JStr "E");
                      ("codAut", JStr "49999999999999") ])
              "data:image/png;base64,")
    as (Hform & Htotals & r & code & Hrun & Hok & Herr & Hcae & Hlen & Hdig & Hdate & Hsteady).
  - repeat split; vm_compute; reflexivity.
  - vm_compute. discriminate.
  - reflexivity.
  - discriminate.
  - reflexivity.
  - vm_compute. reflexivity.
  - reflexivity.
  - split; [exact Hform |]. split; [exact Htotals |].
    exists r, code. repeat (split; [assumption |]).
    apply Hsteady. reflexivity.
Defined.

(** Claim C2 as stated fails: the invoice of the scenario dated 2024-01-01
    and submitted on 2024-03-15 is authorized with the expiry date
    2024-03-25, which is not the date of the invoice plus ten days. *)
Lemma expiry_is_not_issue_date_plus_10 :
  exists r,
    fst (run (AFIPService.sendInvoice Sample.env Sample.config Sample.invoice)) = Return r /\
    success r = true /\
    fecha Sample.invoice = "2024-01-01" /\
    JSDate.iso_date (Date_now Sample.env / JSDate.msPerDay) = "2024-03-15" /\
    fechaVencimientoCae r = Some "2024-03-25" /\
    JSDate.plus_days (fecha Sample.invoice) 10 = "2024-01-11" /\
    fechaVencimientoCae r <> Some (JSDate.plus_days (fecha Sample.invoice) 10).
Proof.
  eexists. split; [vm_compute; reflexivity |].
  repeat (split; [vm_compute; reflexivity |]).
  vm_compute. discriminate.
Qed.

(** ** [generateXMLRequest] *)

Lemma xml_elements_XArr (tag : string) (l : list xmlobj) :
  xml_elements tag (XArr l) = foldr (fun x n => (xml_elements tag x + n)%nat) O l.
Proof. induction l as [| x l IH]; [reflexivity |]. cbn in *. now rewrite IH. Qed.

Lemma xml_elements_alicIva (l : list InvoiceItem) :
  xml_elements "ar:AlicIva" (XArr (map AFIPService.alicIva l)) = O.
Proof.
  rewrite xml_elements_XArr. induction l as [| item l IH]; [reflexivity |].
  cbn [map foldr]. rewrite IH. reflexivity.
Qed.

(** Claim C3, as amended. The request holds one [ar:AlicIva] entry for
    each line of the invoice (a single one only for an invoice of one line),
    in the order of the lines, and every entry carries the code 5, that of
    the 21% rate, whatever the rate of its line. *)
Theorem alicIva_per_line (config : AFIPConfig) (inv : InvoiceData) :
  xml_elements "ar:AlicIva" (AFIPService.xmlData config inv) = List.length (items inv) /\
  xpath [ "soap:Envelope"; "soap:Body"; "ar:FECAESolicitar"; "ar:FeCAEReq";
          "ar:FeDetReq"; "ar:FECAEDetRequest"; "ar:Iva"; "ar:AlicIva" ]
        (AFIPService.xmlData config inv)
  = XArr (map AFIPService.alicIva (items inv)) /\
  forall item, xget "ar:Id" (AFIPService.alicIva item) = XVal (JSNumber (of_Z 5)).
Proof.
  split; [| split; [reflexivity | reflexivity]].
  pose proof (xml_elements_alicIva (items inv)) as H.
  rewrite <- (length_map AFIPService.alicIva (items inv)).
  unfold AFIPService.xmlData.
  generalize dependent (map AFIPService.alicIva (items inv)). intros es H.
  cbn [xml_elements] in H. cbn. rewrite H. lia.
Qed.

(** Claim C3 as stated fails: an invoice of two lines, the second taxed at
    10.5%, gives a request with two [ar:AlicIva] entries, both with the
    code 5. *)
Lemma two_lines_two_entries :
  List.length (items Sample.two_lines) = 2%nat /\
  xml_elements "ar:AlicIva" (AFIPService.xmlData Sample.config Sample.two_lines) = 2%nat /\
  exists first second,
    xpath [ "soap:Envelope"; "soap:Body"; "ar:FECAESolicitar"; "ar:FeCAEReq";
            "ar:FeDetReq"; "ar:FECAEDetRequest"; "ar:Iva"; "ar:AlicIva" ]
          (AFIPService.xmlData Sample.config Sample.two_lines)
    = XArr [first; second] /\
    xget "ar:Id" first = XVal (JSNumber (of_Z 5)) /\
    xget "ar:Id" second = XVal (JSNumber (of_Z 5)) /\
    map alicuotaIVA (items Sample.two_lines) = [of_Z 21; decimal 105 1].
Proof.
  split; [reflexivity |]. split; [vm_compute; reflexivity |].
  eexists _, _. split; [vm_compute; reflexivity |].
  repeat split; vm_compute; reflexivity.
Qed.

(** ** The amounts of the form *)

Lemma recompute_at_middle (done rest : list InvoiceItem) (item : InvoiceItem) :
  Page.recompute_at (done ++ item :: rest) (List.length done) item
  = done ++ Page.set_importeTotal (round2 (Page.totalItem item))
              (Page.set_importeIVA (round2 (Page.ivaItem item)) item) :: rest.
Proof.
  unfold Page.recompute_at, Page.setValue.
  rewrite !alter_app_r_alt by lia. rewrite Nat.sub_diag. reflexivity.
Qed.

Lemma forEach_from_spec (done watched : list InvoiceItem) :
  Page.forEach_from (List.length done) watched (done ++ watched)
  = done ++ map (fun it => Page.set_importeTotal (round2 (Page.totalItem it))
                             (Page.set_importeIVA (round2 (Page.ivaItem it)) it))
                watched.
Proof.
  revert done. induction watched as [| item rest IH]; intros done; [reflexivity |].
  cbn [Page.forEach_from map]. rewrite recompute_at_middle.
  specialize (IH (done ++ [Page.set_importeTotal (round2 (Page.totalItem item))
                             (Page.set_importeIVA (round2 (Page.ivaItem item)) item)])).
  rewrite length_app, Nat.add_1_r, <- !app_assoc in IH. exact IH.
Qed.

(** Claim C1, as amended. The recomputation rewrites every line of the form,
    and nothing else of it: each line keeps its quantity, price and rate,
    its tax amount becomes [round2 (q * p * (rate / 100))] and its total
    becomes [round2 (q * p + q * p * (rate / 100))], the sum being rounded
    once, from the tax amount before its rounding. *)
Theorem recompute_lines (form : list InvoiceItem) :
  Page.recompute form =
  map (fun it =>
         let net := mul (cantidad it) (precioUnitario it) in
         let tax := mul net (div (alicuotaIVA it) (of_Z 100)) in
         mkItem (id it) (descripcion it) (cantidad it) (precioUnitario it)
                (alicuotaIVA it) (round2 tax) (round2 (add net tax)))
      form.
Proof. exact (forEach_from_spec [] form). Qed.

(** Claim C1 as stated fails: for a quarter of a unit at 3.17 with 27% of
    tax the recomputed tax amount is 0.21 and the recomputed total is 1.01,
    while the net amount rounded, 0.79, plus the tax amount is 1. *)
Lemma line_total_is_not_sum_of_rounded :
  gt (cantidad Sample.quarter) (of_Z 0) = true /\
  gt (precioUnitario Sample.quarter) (of_Z 0) = true /\
  alicuotaIVA Sample.quarter = of_Z 27 /\
  exists it,
    Page.recompute [Sample.quarter] = [it] /\
    importeIVA it = decimal 21 2 /\
    importeTotal it = decimal 101 2 /\
    round2 (mul (cantidad Sample.quarter) (precioUnitario Sample.quarter)) = decimal 79 2 /\
    add (round2 (mul (cantidad Sample.quarter) (precioUnitario Sample.quarter)))
        (importeIVA it) = of_Z 1 /\
    importeTotal it
    <> add (round2 (mul (cantidad Sample.quarter) (precioUnitario Sample.quarter)))
           (importeIVA it).
Proof.
  repeat (split; [vm_compute; reflexivity |]).
  eexists. split; [vm_compute; reflexivity |].
  repeat (split; [vm_compute; reflexivity |]).
  vm_compute. discriminate.
Qed.

(** ** Totals and the order of the lines *)

(** Addition of binary64 numbers is commutative. *)
Lemma add_comm (x y : number) : add x y = add y x.
Proof.
  destruct x as [s | s | | s m e], y as [t | t | | t n f]; cbn;
    try reflexivity; try (destruct s, t; reflexivity).
  now rewrite Z.min_comm, Z.add_comm.
Qed.

(** A sum of two terms that starts from the literal [0] does not depend on
    their order. *)
Lemma add_zero_swap (x y : number) :
  add (add (of_Z 0) x) y = add (add (of_Z 0) y) x.
Proof.
  change (of_Z 0) with (S754_zero false).
  destruct x as [s | s | | s m e], y as [t | t | | t n f];
    try reflexivity; try (destruct s; reflexivity); try (destruct t; reflexivity);
    try (destruct s, t; reflexivity).
  change (add (S754_zero false) (S754_finite s m e)) with (S754_finite s m e).
  change (add (S754_zero false) (S754_finite t n f)) with (S754_finite t n f).
  apply add_comm.
Qed.

Lemma reduce_sum_swap (f : InvoiceItem -> number) (a b : InvoiceItem) :
  Page.reduce_sum f [a; b] = Page.reduce_sum f [b; a].
Proof. unfold Page.reduce_sum. cbn [fold_left]. apply add_zero_swap. Qed.

(** Claim C9, as amended. For an invoice of at most two lines the totals do
    not depend on the order of the lines: every permutation gives the same
    subtotal, tax and total, in the form and in the sums the route
    recomputes. (Binary64 addition is commutative; it is not associative,
    and from three lines on the order can show.) *)
Theorem totals_order_two_lines (l l' : list InvoiceItem) :
  Permutation l l' -> (List.length l <= 2)%nat ->
  Page.calculateTotals l = Page.calculateTotals l' /\
  forall inv inv', items inv = l -> items inv' = l' ->
    Route.calculatedSubtotal inv = Route.calculatedSubtotal inv' /\
    Route.calculatedIVA inv = Route.calculatedIVA inv'.
Proof.
  intros Hp Hlen.
  assert (Hl : l' = l \/ exists a b, l = [a; b] /\ l' = [b; a]).
  { destruct l as [| a [| b [| c l]]]; cbn in Hlen; try lia.
    - left. now apply Permutation_nil.
    - left. now apply Permutation_length_1_inv.
    - apply Permutation_length_2_inv in Hp as [-> | ->]; [now left | right].
      now exists a, b. }
  destruct Hl as [-> | (a & b & -> & ->)].
  - split; [reflexivity |]. intros inv inv' H1 H2.
    unfold Route.calculatedSubtotal, Route.calculatedIVA. now rewrite H1, H2.
  - split.
    + unfold Page.calculateTotals.
      now rewrite (reduce_sum_swap Page.subtotalItem a b), (reduce_sum_swap importeIVA a b).
    + intros inv inv' H1 H2.
      unfold Route.calculatedSubtotal, Route.calculatedIVA. rewrite H1, H2.
      split.
      * exact (reduce_sum_swap Page.subtotalItem a b).
      * exact (reduce_sum_swap importeIVA a b).
Qed.

Lemma totals_order_two_lines_witness :
  Page.calculateTotals (items Sample.two_lines)
  = Page.calculateTotals (rev (items Sample.two_lines)) /\
  forall inv inv', items inv = items Sample.two_lines ->
    items inv' = rev (items Sample.two_lines) ->
    Route.calculatedSubtotal inv = Route.calculatedSubtotal inv' /\
    Route.calculatedIVA inv = Route.calculatedIVA inv'.
Proof.
  apply totals_order_two_lines.
  - apply perm_swap.
  - cbn. lia.
Defined.

(** Claim C9 as stated fails: three lines whose net amounts are 5.415, 0.64
    and 6.36 give the subtotal 12.41 and the total 14.61 in one order, and
    12.42 and 14.62 with the last two lines exchanged. *)
Lemma totals_depend_on_order :
  Permutation Sample.three Sample.three_permuted /\
  Page.recompute Sample.three = Sample.three /\
  Page.calculateTotals Sample.three
  = Page.mkTotals (decimal 1241 2) (decimal 220 2) (decimal 1461 2) /\
  Page.calculateTotals Sample.three_permuted
  = Page.mkTotals (decimal 1242 2) (decimal 220 2) (decimal 1462 2) /\
  Page.calculateTotals Sample.three <> Page.calculateTotals Sample.three_permuted.
Proof.
  split; [apply perm_skip, perm_swap |].
  repeat (split; [vm_compute; reflexivity |]).
  vm_compute. discriminate.
Qed.

(** Claim C7, on the code. The route accepts an invoice whose total is off
    by one, where the claim has it refused: the body passes the schema, the subtotal and the tax are the ones computed
    from the line, the total 243 is not 200 + 42, and the request goes
    through [sendInvoice] and is answered with the status 200. *)
Lemma POST_accepts_total_off_by_one :
  Route.InvoiceSchema Sample.off_by_one = [] /\
  Page.calculateTotals (items Sample.off_by_one)
  = Page.mkTotals (of_Z 200) (of_Z 42) (of_Z 242) /\
  total Sample.off_by_one = of_Z 243 /\
  exists data,
    run (Route.POST Sample.env Sample.config (Return Sample.off_by_one))
    = (Return (Route.mkHttp 200 (Route.Success data)), full_trace) /\
    In (Call "sendInvoice") full_trace /\
    Route.d_cae data = Some "49999999999999".
Proof.
  repeat (split; [vm_compute; reflexivity |]).
  eexists. split; [vm_compute; reflexivity |].
  split; [left; reflexivity | reflexivity].
Qed.

(** ** Further properties of the route and the service *)

Lemma issue_nil (ok : bool) (path : string) : Route.issue ok path = [] <-> ok = true.
Proof. destruct ok; cbn; split; intros H; try reflexivity; discriminate H. Qed.

Lemma app_nil_iff {A} (l l' : list A) : l ++ l' = [] <-> l = [] /\ l' = [].
Proof.
  split; [apply app_eq_nil | intros [-> ->]; reflexivity].
Qed.

Lemma InvoiceItemSchema_nil (prefix : string) (item : InvoiceItem) :
  Route.InvoiceItemSchema prefix item = [] <-> item_ok item = true.
Proof.
  unfold Route.InvoiceItemSchema, item_ok.
  rewrite !app_nil_iff, !issue_nil, !andb_true_iff. tauto.
Qed.

Lemma items_issues_nil (i : nat) (l : list InvoiceItem) :
  Route.items_issues i l = [] <-> forallb item_ok l = true.
Proof.
  revert i. induction l as [| item l IH]; intros i; cbn [Route.items_issues forallb].
  - tauto.
  - rewrite app_nil_iff, InvoiceItemSchema_nil, IH, andb_true_iff. tauto.
Qed.

Lemma ClienteSchema_nil (c : ClienteData) :
  Route.ClienteSchema c = [] <-> cliente_ok c = true.
Proof.
  unfold Route.ClienteSchema, cliente_ok.
  rewrite !app_nil_iff, !issue_nil, !andb_true_iff. tauto.
Qed.

Lemma InvoiceSchema_nil (body : InvoiceData) :
  Route.InvoiceSchema body = [] <->
  Route.z_enum_tipo (tipoComprobante body) = true /\
  Route.z_positive (puntoVenta body) = true /\
  Route.z_positive (numeroComprobante body) = true /\
  Route.fecha_regex (fecha body) = true /\
  cliente_ok (cliente body) = true /\
  (1 <= List.length (items body))%nat /\
  forallb item_ok (items body) = true /\
  Route.z_positive (subtotal body) = true /\
  Route.z_min0 (totalIVA body) = true /\
  Route.z_positive (total body) = true.
Proof.
  unfold Route.InvoiceSchema.
  rewrite !app_nil_iff, !issue_nil, ClienteSchema_nil, items_issues_nil.
  rewrite Nat.leb_le. tauto.
Qed.

(** What a run of [POST] returns and which steps it enters. *)
Lemma POST_run (env : Env) (config : AFIPConfig) (request : outcome InvoiceData) :
  run (Route.POST env config request) =
  match request with
  | Throw _ =>
      (Return (Route.mkHttp 500 (Route.Failure "Error interno del servidor" None)),
       [ConsoleError "Error en API de factura:"])
  | Return inv =>
      match Route.InvoiceSchema inv with
      | (_ :: _) as issues =>
          (Return (Route.mkHttp 400
                     (Route.Failure "Datos de factura inválidos" (Some issues))), [])
      | [] =>
          if gt (Math_abs (sub (Route.calculatedSubtotal inv) (subtotal inv))) (decimal 1 2)
          then (Return (Route.mkHttp 400
                          (Route.Failure "El subtotal calculado no coincide con el enviado"
                             None)), [])
          else if gt (Math_abs (sub (Route.calculatedIVA inv) (totalIVA inv))) (decimal 1 2)
          then (Return (Route.mkHttp 400
                          (Route.Failure
                             "El total de IVA calculado no coincide con el enviado" None)),
                [])
          else
            match run (AFIPService.sendInvoice env config inv) with
            | (Return r, tr) =>
                (Return
                   (if success r
                    then Route.mkHttp 200
                           (Route.Success
                              (Route.mkData (cae r) (fechaVencimientoCae r)
                                 (Route.json_field (resp_numeroComprobante r)) (qrCode r)
                                 (resp_observaciones r)))
                    else Route.mkHttp 500
                           (Route.Failure
                              (Route.or_string (error r)
                                 "Error al procesar la factura en AFIP") None)), tr)
            | (Throw _, tr) =>
                (Return (Route.mkHttp 500 (Route.Failure "Error interno del servidor" None)),
                 tr ++ [ConsoleError "Error en API de factura:"])
            end
      end
  end.
Proof.
  unfold Route.POST, run, try_catch, bind, lift, ret, log.
  destruct request as [inv | e]; [| reflexivity].
  destruct (Route.InvoiceSchema inv); [| reflexivity].
  destruct (gt _ _); [reflexivity |].
  destruct (gt _ _); [reflexivity |].
  destruct (AFIPService.sendInvoice env config inv []) as [[r | e] tr]; [| reflexivity].
  destruct (success r); reflexivity.
Qed.

Lemma prefix_append (pat s : string) :
  String.prefix pat s = true -> exists r, s = String.append pat r.
Proof.
  revert s. induction pat as [| a pat IH]; intros s H.
  - exists s. reflexivity.
  - destruct s as [| b s]; [discriminate H |]. cbn in H.
    destruct (ascii_dec a b) as [-> | _]; [| discriminate H].
    destruct (IH s H) as [r ->]. exists r. reflexivity.
Qed.

Lemma prefix_length (pat s : string) :
  String.prefix pat s = true -> (String.length pat <= String.length s)%nat.
Proof.
  intros H. destruct (prefix_append pat s H) as [r ->].
  rewrite Digits.length_append. lia.
Qed.

Lemma substring_all (r : string) : String.substring 0 (String.length r) r = r.
Proof. induction r as [| c r IH]; cbn; [reflexivity |]. now rewrite IH. Qed.

Lemma substring_append_r (pat r : string) :
  String.substring (String.length pat)
    (String.length (String.append pat r) - String.length pat) (String.append pat r) = r.
Proof.
  rewrite Digits.length_append.
  replace (String.length pat + String.length r - String.length pat)%nat
    with (String.length r) by lia.
  induction pat as [| a pat IH].
  - change (String.append EmptyString r) with r. apply substring_all.
  - change (String.append (String a pat) r) with (String a (String.append pat r)).
    cbn [String.length String.substring]. exact IH.
Qed.

(** [replace_first] rewrites one occurrence of the pattern, the first one:
    the text before it holds no start of an occurrence. *)
Lemma replace_first_spec (pat rep s : string) :
  replaced pat rep s (Str.replace_first pat rep s).
Proof.
  unfold replaced.
  induction s as [| c s IH].
  - destruct pat as [| a pat]; [| reflexivity].
    exists EmptyString, EmptyString. split; [reflexivity |]. split; [reflexivity |].
    intros a1 a2 Ha Hne. destruct a1 as [| c1 a1]; [| discriminate Ha].
    change (String.append EmptyString a2) with a2 in Ha. congruence.
  - cbn [includes Str.replace_first].
    destruct (String.prefix pat (String c s)) eqn:Hp.
    + cbn [orb]. destruct (prefix_append _ _ Hp) as [r Hr].
      exists EmptyString, r. split; [exact Hr |]. split.
      * rewrite Hr. rewrite substring_append_r. reflexivity.
      * intros a1 a2 Ha Hne. destruct a1 as [| c1 a1]; [| discriminate Ha].
        change (String.append EmptyString a2) with a2 in Ha. congruence.
    + cbn [orb]. destruct (includes pat s).
      * destruct IH as (a & b & -> & -> & Hfirst).
        exists (String c a), b. split; [reflexivity |]. split; [reflexivity |].
        intros a1 a2 Ha Hne. destruct a1 as [| c1 a1].
        -- change (String.append EmptyString a2) with a2 in Ha. subst a2. exact Hp.
        -- change (String.append (String c1 a1) a2)
             with (String c1 (String.append a1 a2)) in Ha.
           injection Ha as -> Ha. now apply (Hfirst a1 a2).
      * now rewrite IH.
Qed.

(** Behind the schema the guard of [sendInvoice] cannot fire. *)
Lemma schema_complete (inv : InvoiceData) :
  Route.InvoiceSchema inv = [] -> incomplete inv = false.
Proof.
  intros H. apply InvoiceSchema_nil in H as (_ & _ & _ & _ & Hc & Hlen & _).
  unfold cliente_ok in Hc. rewrite !andb_true_iff in Hc.
  destruct Hc as [[[[_ Hdoc] _] _] _].
  unfold incomplete. apply orb_false_intro.
  - destruct (numeroDocumento (cliente inv)) as [[| c s] |]; try discriminate Hdoc.
    reflexivity.
  - apply Nat.eqb_neq. lia.
Qed.

Lemma sums_agree_false (inv : InvoiceData) :
  sums_agree inv = negb (gt (Math_abs (sub (Route.calculatedSubtotal inv) (subtotal inv)))
                           (decimal 1 2))
                   && negb (gt (Math_abs (sub (Route.calculatedIVA inv) (totalIVA inv)))
                              (decimal 1 2)).
Proof. reflexivity. Qed.

(** Property X1. [POST] answers every request: it never throws, its status
    is 200, 400 or 500, and the body is a success exactly when the status
    is 200. *)
Theorem POST_answers (env : Env) (config : AFIPConfig) (request : outcome InvoiceData) :
  exists resp tr,
    run (Route.POST env config request) = (Return resp, tr) /\
    (Route.status resp = 200 \/ Route.status resp = 400 \/ Route.status resp = 500) /\
    (Route.status resp = 200 <-> exists data, Route.body resp = Route.Success data).
Proof.
  rewrite POST_run.
  destruct request as [inv | e].
  2:{ eexists _, _. split; [reflexivity |]. cbn. split; [auto |].
      split; [discriminate | intros [? H]; discriminate H]. }
  destruct (Route.InvoiceSchema inv).
  2:{ eexists _, _. split; [reflexivity |]. cbn. split; [auto |].
      split; [discriminate | intros [? H]; discriminate H]. }
  destruct (gt _ _).
  { eexists _, _. split; [reflexivity |]. cbn. split; [auto |].
    split; [discriminate | intros [? H]; discriminate H]. }
  destruct (gt _ _).
  { eexists _, _. split; [reflexivity |]. cbn. split; [auto |].
    split; [discriminate | intros [? H]; discriminate H]. }
  destruct (run (AFIPService.sendInvoice env config inv)) as [[r | e] tr].
  - destruct (success r); eexists _, _; (split; [reflexivity |]); cbn.
    + split; [auto |]. split; [now eexists | reflexivity].
    + split; [auto |]. split; [discriminate | intros [? H]; discriminate H].
  - eexists _, _. split; [reflexivity |]. cbn. split; [auto |].
    split; [discriminate | intros [? H]; discriminate H].
Qed.

Lemma in_sendInvoice_trace (env : Env) (config : AFIPConfig) (inv : InvoiceData) :
  In (Call "sendInvoice") (snd (run (AFIPService.sendInvoice env config inv))).
Proof.
  rewrite sendInvoice_run.
  destruct (incomplete inv);
    [| destruct (buildObject env _);
       [destruct (expiry env);
        [destruct (JSON_stringify _); [destruct (toDataURL env _) |] |] |]];
    cbn; auto.
Qed.

(** Property X2. [POST] calls [sendInvoice] exactly when the body is JSON,
    passes the schema, and neither recomputed sum is more than 0.01 away
    from the one sent; the total takes no part beyond the schema. *)
Theorem POST_reaches_service_iff (env : Env) (config : AFIPConfig)
    (request : outcome InvoiceData) :
  In (Call "sendInvoice") (snd (run (Route.POST env config request))) <->
  exists inv, request = Return inv /\ Route.InvoiceSchema inv = [] /\ sums_agree inv = true.
Proof.
  rewrite POST_run. destruct request as [inv | e].
  2:{ cbn. split; [intros [H | []]; discriminate H | intros (? & H & _); discriminate H]. }
  destruct (Route.InvoiceSchema inv) eqn:Hs.
  2:{ cbn. split; [intros [] | intros (? & H & H' & _)].
      injection H as <-. rewrite Hs in H'. discriminate H'. }
  rewrite <- Hs.
  destruct (gt (Math_abs (sub (Route.calculatedSubtotal inv) (subtotal inv))) (decimal 1 2))
    eqn:Hg1.
  { split; [intros [] | intros (? & H & _ & H')].
    injection H as <-. unfold sums_agree in H'. rewrite Hg1 in H'. discriminate H'. }
  destruct (gt (Math_abs (sub (Route.calculatedIVA inv) (totalIVA inv))) (decimal 1 2))
    eqn:Hg2.
  { split; [intros [] | intros (? & H & _ & H')].
    injection H as <-. unfold sums_agree in H'. rewrite Hg1, Hg2 in H'. discriminate H'. }
  assert (Hsum : sums_agree inv = true) by (unfold sums_agree; now rewrite Hg1, Hg2).
  pose proof (in_sendInvoice_trace env config inv) as Hin.
  destruct (run (AFIPService.sendInvoice env config inv)) as [[r | e] tr]; cbn in *.
  - split; [intros _ | intros _; exact Hin]. now exists inv.
  - split; [intros _ | intros _; apply in_or_app; now left]. now exists inv.
Qed.

(** Property X3. A validation failure is answered with the status 400
    before any step of the service: a body with issues gets them as
    details, a subtotal more than 0.01 off and then a tax more than 0.01
    off get their own message, and the trace stays empty. *)
Theorem POST_validation_failures (env : Env) (config : AFIPConfig) (inv : InvoiceData) :
  (Route.InvoiceSchema inv <> [] ->
   run (Route.POST env config (Return inv))
   = (Return (Route.mkHttp 400
                (Route.Failure "Datos de factura inválidos"
                   (Some (Route.InvoiceSchema inv)))), [])) /\
  (Route.InvoiceSchema inv = [] ->
   gt (Math_abs (sub (Route.calculatedSubtotal inv) (subtotal inv))) (decimal 1 2) = true ->
   run (Route.POST env config (Return inv))
   = (Return (Route.mkHttp 400
                (Route.Failure "El subtotal calculado no coincide con el enviado" None)),
      [])) /\
  (Route.InvoiceSchema inv = [] ->
   gt (Math_abs (sub (Route.calculatedSubtotal inv) (subtotal inv))) (decimal 1 2) = false ->
   gt (Math_abs (sub (Route.calculatedIVA inv) (totalIVA inv))) (decimal 1 2) = true ->
   run (Route.POST env config (Return inv))
   = (Return (Route.mkHttp 400
                (Route.Failure "El total de IVA calculado no coincide con el enviado" None)),
      [])).
Proof.
  rewrite POST_run. repeat split.
  - intros H. destruct (Route.InvoiceSchema inv); [contradiction | reflexivity].
  - intros -> ->. reflexivity.
  - intros -> -> ->. reflexivity.
Qed.

Lemma schema_with_total (t : number) (inv : InvoiceData) :
  Route.z_positive t = true -> Route.z_positive (total inv) = true ->
  Route.InvoiceSchema (with_total t inv) = Route.InvoiceSchema inv.
Proof.
  intros Ht Hi. unfold Route.InvoiceSchema. cbn. now rewrite Ht, Hi.
Qed.

(** Property X4. [POST] ignores the value of [total]: replacing a positive
    total by any other positive one changes neither whether [sendInvoice]
    is called nor any answer with the status 400. *)
Theorem POST_ignores_total (env : Env) (config : AFIPConfig) (inv : InvoiceData)
    (t : number) :
  Route.z_positive t = true -> Route.z_positive (total inv) = true ->
  (In (Call "sendInvoice") (snd (run (Route.POST env config (Return (with_total t inv)))))
   <-> In (Call "sendInvoice") (snd (run (Route.POST env config (Return inv))))) /\
  forall resp tr,
    run (Route.POST env config (Return inv)) = (Return resp, tr) ->
    Route.status resp = 400 ->
    run (Route.POST env config (Return (with_total t inv))) = (Return resp, tr).
Proof.
  intros Ht Hi. rewrite !POST_run, (schema_with_total t inv Ht Hi).
  change (Route.calculatedSubtotal (with_total t inv)) with (Route.calculatedSubtotal inv).
  change (Route.calculatedIVA (with_total t inv)) with (Route.calculatedIVA inv).
  change (subtotal (with_total t inv)) with (subtotal inv).
  change (totalIVA (with_total t inv)) with (totalIVA inv).
  destruct (Route.InvoiceSchema inv); [| split; [tauto | auto]].
  destruct (gt _ _); [split; [tauto | auto] |].
  destruct (gt _ _); [split; [tauto | auto] |].
  pose proof (in_sendInvoice_trace env config inv) as Ha.
  pose proof (in_sendInvoice_trace env config (with_total t inv)) as Hb.
  destruct (run (AFIPService.sendInvoice env config inv)) as [[r | e] tr];
    destruct (run (AFIPService.sendInvoice env config (with_total t inv)))
      as [[r' | e'] tr']; cbn in *; rewrite ?in_app_iff;
    (split; [tauto |]); intros resp tr0 [= <- <-]; try (intros H; discriminate H);
    destruct (success r); intros H; discriminate H.
Qed.

(** Property X5. Behind the schema the guard of [sendInvoice] is dead:
    whatever the request, [POST] never answers with the failure "Datos
    incompletos" of the service. *)
Theorem POST_guard_unreachable (env : Env) (config : AFIPConfig)
    (request : outcome InvoiceData) (resp : Route.Response) (tr : list event) :
  run (Route.POST env config request) = (Return resp, tr) ->
  forall details,
    Route.body resp
    <> Route.Failure "Datos incompletos: se requiere CUIT del cliente e items" details.
Proof.
  rewrite POST_run. destruct request as [inv | e].
  2:{ intros [= <- _] d. discriminate. }
  destruct (Route.InvoiceSchema inv) eqn:Hs.
  2:{ intros [= <- _] d. discriminate. }
  destruct (gt _ _); [intros [= <- _] d; discriminate |].
  destruct (gt _ _); [intros [= <- _] d; discriminate |].
  rewrite sendInvoice_run, (schema_complete inv Hs).
  destruct (buildObject env _) as [xml | e].
  - destruct (expiry env) as [date | e]; [| intros [= <- _] d; cbn; discriminate].
    destruct (JSON_stringify _) as [j |].
    + destruct (toDataURL env j) as [qr | e]; intros [= <- _] d; cbn; discriminate.
    + intros [= <- _] d; cbn; discriminate.
  - intros [= <- _] d. cbn. discriminate.
Qed.

(** A positive number is written into a body as it is, or as [null] when it
    is [Infinity]. *)
Lemma json_field_positive (x : number) :
  Route.z_positive x = true ->
  Route.json_field (Some x)
  = Some (if number_eqb x Infinity then JNull else JNum x).
Proof.
  unfold Route.z_positive, Route.z_number.
  destruct x as [[|] | [|] | | [|] m e]; intros H; try discriminate H; reflexivity.
Qed.

(** Property X6. An answer with the status 200 comes from a body that
    passed the schema and both comparisons and went through every step of
    the service, under a clock whose instant ten days later is a valid time
    value. It carries a code of fourteen digits, the UTC date of that
    instant, the sequence number of the body as JSON writes it ([null] for
    [Infinity]) and the one fixed remark. *)
Theorem POST_success_data (env : Env) (config : AFIPConfig)
    (request : outcome InvoiceData) (resp : Route.Response) (tr : list event) :
  unit_interval (Math_random env) ->
  run (Route.POST env config request) = (Return resp, tr) ->
  Route.status resp = 200 ->
  exists inv code qr,
    request = Return inv /\
    Route.InvoiceSchema inv = [] /\ sums_agree inv = true /\
    tr = full_trace /\
    valid_time (ten_days_later env) /\
    Route.body resp
    = Route.Success
        (Route.mkData (Some code)
           (Some (JSDate.iso_date (JSDate.Day (ten_days_later env))))
           (Some (if number_eqb (numeroComprobante inv) Infinity
                  then JNull else JNum (numeroComprobante inv)))
           (Some qr)
           (Some ["Comprobante autorizado correctamente"])) /\
    String.length code = 14%nat /\ Str.all_digits code = true.
Proof.
  intros Hr. rewrite POST_run. destruct request as [inv | e].
  2:{ intros [= <- _] H. discriminate H. }
  destruct (Route.InvoiceSchema inv) eqn:Hs.
  2:{ intros [= <- _] H. discriminate H. }
  destruct (gt (Math_abs (sub (Route.calculatedSubtotal inv) (subtotal inv))) (decimal 1 2))
    eqn:Hg1; [intros [= <- _] H; discriminate H |].
  destruct (gt (Math_abs (sub (Route.calculatedIVA inv) (totalIVA inv))) (decimal 1 2))
    eqn:Hg2; [intros [= <- _] H; discriminate H |].
  rewrite sendInvoice_run, (schema_complete inv Hs).
  destruct (buildObject env _) as [xml | e]; [| intros [= <- _] H; discriminate H].
  destruct (expiry env) as [date | e] eqn:He; [| intros [= <- _] H; discriminate H].
  destruct (JSON_stringify _) as [j |]; [| intros [= <- _] H; discriminate H].
  destruct (toDataURL env j) as [qr | e]; [| intros [= <- _] H; discriminate H].
  intros [= <- <-] _.
  cbn [Route.body cae fechaVencimientoCae resp_numeroComprobante qrCode
       resp_observaciones success].
  destruct (simulated_cae env Hr) as [Hlen Hdig].
  destruct (expiry_Return env date He) as [Hv ->].
  apply InvoiceSchema_nil in Hs as Hs'. destruct Hs' as (_ & _ & Hn & _).
  exists inv, (simulated_code env), qr.
  split; [reflexivity |]. split; [exact Hs |].
  split; [unfold sums_agree; now rewrite Hg1, Hg2 |].
  split; [reflexivity |]. split; [exact Hv |]. split; [| now split].
  rewrite <- (json_field_positive _ Hn). reflexivity.
Qed.

Lemma POST_success_data_witness :
  exists inv code qr,
    Return Sample.unnumbered = Return inv /\
    Route.InvoiceSchema inv = [] /\ sums_agree inv = true /\
    full_trace = full_trace /\
    valid_time (ten_days_later Sample.env) /\
    Route.body (Route.mkHttp 200
                  (Route.Success
                     (Route.mkData (Some "49999999999999") (Some "2024-03-25")
                        (Some JNull) (Some "data:image/png;base64,")
                        (Some ["Comprobante autorizado correctamente"]))))
    = Route.Success
        (Route.mkData (Some code)
           (Some (JSDate.iso_date (JSDate.Day (ten_days_later Sample.env))))
           (Some (if number_eqb (numeroComprobante inv) Infinity
                  then JNull else JNum (numeroComprobante inv)))
           (Some qr)
           (Some ["Comprobante autorizado correctamente"])) /\
    String.length code = 14%nat /\ Str.all_digits code = true.
Proof.
  apply (POST_success_data Sample.env Sample.config).
  - repeat split; vm_compute; reflexivity.
  - vm_compute. reflexivity.
  - reflexivity.
Defined.

(** Property X7. A failure inside the service turns into a failure result
    whose text is "Error al procesar la factura: " followed by the message
    of the error ("Error desconocido" for a value that is no [Error]), with
    one line on the console. When the XML builder throws on the document of
    the invoice, nothing is signed and no code is generated. When the
    instant ten days after the clock is no valid time value, the date
    throws and the QR library is not called. When the QR library throws on
    the payload of the invoice, the code generated before is dropped. *)
Theorem sendInvoice_library_failure (env : Env) (config : AFIPConfig) (inv : InvoiceData) :
  incomplete inv = false ->
  (forall e, buildObject env (AFIPService.xmlData config inv) = Throw e ->
     run (AFIPService.sendInvoice env config inv)
     = (Return (mkResponse false None None None None
                  (Some (String.append "Error al procesar la factura: "
                           match e with
                           | ErrorObject message => message
                           | OtherThrown => "Error desconocido"
                           end)) None),
        [Call "sendInvoice"; Call "generateXMLRequest";
         ConsoleError "Error en AFIP Service:"])) /\
  (forall xml,
     buildObject env (AFIPService.xmlData config inv) = Return xml ->
     ~ valid_time (ten_days_later env) ->
     run (AFIPService.sendInvoice env config inv)
     = (Return (mkResponse false None None None None
                  (Some "Error al procesar la factura: Invalid time value") None),
        [Call "sendInvoice"; Call "generateXMLRequest"; Call "signXML";
         Call "generateSimulatedCAE"; Call "getFechaVencimientoCAE";
         ConsoleError "Error en AFIP Service:"])) /\
  (forall xml qrString e,
     buildObject env (AFIPService.xmlData config inv) = Return xml ->
     valid_time (ten_days_later env) ->
     JSON_stringify (AFIPService.qrData config inv (simulated_code env)) = Some qrString ->
     toDataURL env qrString = Throw e ->
     run (AFIPService.sendInvoice env config inv)
     = (Return (mkResponse false None None None None
                  (Some (String.append "Error al procesar la factura: "
                           match e with
                           | ErrorObject message => message
                           | OtherThrown => "Error desconocido"
                           end)) None),
        [Call "sendInvoice"; Call "generateXMLRequest"; Call "signXML";
         Call "generateSimulatedCAE"; Call "getFechaVencimientoCAE";
         Call "generateQRCode"; ConsoleError "Error en AFIP Service:"])).
Proof.
  intros Hinc. split; [| split].
  - intros e He. rewrite sendInvoice_run, Hinc, He. reflexivity.
  - intros xml Hx Hv. rewrite sendInvoice_run, Hinc, Hx, (expiry_invalid env Hv).
    reflexivity.
  - intros xml j e Hx Hv Hj Hq.
    rewrite sendInvoice_run, Hinc, Hx, (expiry_valid env Hv), Hj, Hq. reflexivity.
Qed.

Lemma sendInvoice_library_failure_witness :
  run (AFIPService.sendInvoice Sample.env_builder_throws Sample.config Sample.invoice)
  = (Return (mkResponse false None None None None
               (Some "Error al procesar la factura: Invalid character in name") None),
     [Call "sendInvoice"; Call "generateXMLRequest";
      ConsoleError "Error en AFIP Service:"]) /\
  run (AFIPService.sendInvoice Sample.env_last_days Sample.config Sample.invoice)
  = (Return (mkResponse false None None None None
               (Some "Error al procesar la factura: Invalid time value") None),
     [Call "sendInvoice"; Call "generateXMLRequest"; Call "signXML";
      Call "generateSimulatedCAE"; Call "getFechaVencimientoCAE";
      ConsoleError "Error en AFIP Service:"]) /\
  run (AFIPService.sendInvoice Sample.env_qr_throws Sample.config Sample.invoice)
  = (Return (mkResponse false None None None None
               (Some "Error al procesar la factura: The amount of data is too big to be stored in a QR Code")
               None),
     [Call "sendInvoice"; Call "generateXMLRequest"; Call "signXML";
      Call "generateSimulatedCAE"; Call "getFechaVencimientoCAE";
      Call "generateQRCode"; ConsoleError "Error en AFIP Service:"]).
Proof.
  split; [| split].
  - exact (proj1 (sendInvoice_library_failure Sample.env_builder_throws Sample.config
                    Sample.invoice eq_refl)
             (ErrorObject "Invalid character in name") eq_refl).
  - apply (proj1 (proj2 (sendInvoice_library_failure Sample.env_last_days Sample.config
                           Sample.invoice eq_refl))
             "<soap:Envelope/>" eq_refl).
    vm_compute. intros H. apply H. reflexivity.
  - apply (proj2 (proj2 (sendInvoice_library_failure Sample.env_qr_throws Sample.config
                           Sample.invoice eq_refl))
             "<soap:Envelope/>"
             (JObj [ ("ver", JNum (of_Z 1)); ("fecha", JStr "2024-01-01");
                     ("cuit", JStr "20123456789"); ("ptoVta", JNum (of_Z 1));
                     ("tipoCmp", JNum (of_Z 1)); ("nroCmp", JNum (of_Z 7));
                     ("importe", JNum (of_Z 242)); ("moneda", JStr "PES");
                     ("ctz", JNum (of_Z 1)); ("tipoDocRec", JNum (of_Z 80));
                     ("nroDocRec", JStr "30712345678"); ("tipoCodAut", JStr "E");
                     ("codAut", JStr "49999999999999") ])
             (ErrorObject "The amount of data is too big to be stored in a QR Code")
             eq_refl).
    + vm_compute. discriminate.
    + vm_compute. reflexivity.
    + reflexivity.
Defined.

Lemma view_alicIva (l l' : list InvoiceItem) :
  map (fun it => (cantidad it, precioUnitario it, importeIVA it)) l
  = map (fun it => (cantidad it, precioUnitario it, importeIVA it)) l' ->
  map AFIPService.alicIva l = map AFIPService.alicIva l'.
Proof.
  revert l'. induction l as [| a l IH]; intros [| b l'] H; try discriminate H.
  - reflexivity.
  - cbn [map] in *. injection H as Hq Hp Hv Hrest. f_equal; [| now apply IH].
    unfold AFIPService.alicIva. now rewrite Hq, Hp, Hv.
Qed.

Lemma view_xmlData (config : AFIPConfig) (inv inv' : InvoiceData) :
  service_view inv = service_view inv' ->
  AFIPService.xmlData config inv = AFIPService.xmlData config inv'.
Proof.
  unfold service_view. intros [= Ht Hn Hf Hd Hs Hi Hto Hit].
  unfold AFIPService.xmlData.
  now rewrite Ht, Hn, Hf, Hd, Hs, Hi, Hto, (view_alicIva _ _ Hit).
Qed.

Lemma view_qrData (config : AFIPConfig) (inv inv' : InvoiceData) (code : string) :
  service_view inv = service_view inv' ->
  AFIPService.qrData config inv code = AFIPService.qrData config inv' code.
Proof.
  unfold service_view. intros [= Ht Hn Hf Hd Hs Hi Hto Hit].
  unfold AFIPService.qrData. now rewrite Ht, Hn, Hf, Hd, Hto.
Qed.

(** Property X8. The service reads of an invoice only its kind, sequence
    number, date, recipient document number, three totals and, per line,
    quantity, price and tax amount: two invoices that agree on these give
    the same request document, the same payload and the same run. The sales
    point of the invoice, the remarks, the other fields of the recipient
    and the description, rate and total of a line are never read. *)
Theorem sendInvoice_reads_only_view (env : Env) (config : AFIPConfig)
    (inv inv' : InvoiceData) :
  service_view inv = service_view inv' ->
  AFIPService.xmlData config inv = AFIPService.xmlData config inv' /\
  (forall code, AFIPService.qrData config inv code = AFIPService.qrData config inv' code) /\
  run (AFIPService.sendInvoice env config inv)
  = run (AFIPService.sendInvoice env config inv').
Proof.
  intros Hv. split; [now apply view_xmlData |]. split; [intros; now apply view_qrData |].
  assert (Hn : numeroComprobante inv = numeroComprobante inv')
    by (unfold service_view in Hv; now injection Hv).
  assert (Hinc : incomplete inv = incomplete inv').
  { unfold incomplete. unfold service_view in Hv.
    injection Hv as _ _ _ Hd _ _ _ Hit. rewrite Hd.
    f_equal. apply (f_equal (@List.length _)) in Hit. rewrite !length_map in Hit.
    now rewrite Hit. }
  rewrite !sendInvoice_run, (view_xmlData config inv inv' Hv),
    (view_qrData config inv inv' _ Hv), Hinc, Hn.
  reflexivity.
Qed.

Lemma sendInvoice_reads_only_view_witness :
  AFIPService.xmlData Sample.config Sample.invoice
  = AFIPService.xmlData Sample.config Sample.relabelled /\
  (forall code, AFIPService.qrData Sample.config Sample.invoice code
                = AFIPService.qrData Sample.config Sample.relabelled code) /\
  run (AFIPService.sendInvoice Sample.env Sample.config Sample.invoice)
  = run (AFIPService.sendInvoice Sample.env Sample.config Sample.relabelled).
Proof. apply sendInvoice_reads_only_view. reflexivity. Defined.



(** Property X10. For a [Math.random()] of the unit interval,
    [generateSimulatedCAE] returns a string of exactly fourteen characters,
    all decimal digits. *)
Theorem generateSimulatedCAE_digits (env : Env) :
  unit_interval (Math_random env) ->
  exists code,
    run (AFIPService.generateSimulatedCAE env)
    = (Return code, [Call "generateSimulatedCAE"]) /\
    String.length code = 14%nat /\ Str.all_digits code = true.
Proof.
  intros Hr. destruct (simulated_cae env Hr) as [Hlen Hdig].
  eexists. split; [reflexivity |]. now split.
Qed.

Lemma generateSimulatedCAE_digits_witness :
  exists code,
    run (AFIPService.generateSimulatedCAE Sample.env)
    = (Return code, [Call "generateSimulatedCAE"]) /\
    String.length code = 14%nat /\ Str.all_digits code = true.
Proof.
  apply generateSimulatedCAE_digits. repeat split; vm_compute; reflexivity.
Defined.

(** Property X11. [getTipoComprobante] gives 1, 2 and 3 for the three
    kinds of the table; its result is never falsy; for a kind that names no
    inherited property it is a number between 1 and 3; and for the name of
    a method of [Object.prototype], such as "toString", it is that inherited
    function and no number. *)
Theorem getTipoComprobante_cases (tipo : string) :
  AFIPService.getTipoComprobante "factura" = JSNumber (of_Z 1) /\
  AFIPService.getTipoComprobante "nota_credito" = JSNumber (of_Z 2) /\
  AFIPService.getTipoComprobante "nota_debito" = JSNumber (of_Z 3) /\
  truthy (AFIPService.getTipoComprobante tipo) = true /\
  (not_inherited tipo = true ->
   exists n, 1 <= n <= 3 /\ AFIPService.getTipoComprobante tipo = JSNumber (of_Z n)) /\
  (In tipo AFIPService.Object_prototype_methods ->
   AFIPService.getTipoComprobante tipo = JSFunction tipo).
Proof.
  split; [reflexivity |]. split; [reflexivity |]. split; [reflexivity |].
  unfold AFIPService.getTipoComprobante, AFIPService.tipos_get.
  rewrite tipos_lookup. split; [| split].
  - destruct (String.eqb tipo "factura"); [reflexivity |].
    destruct (String.eqb tipo "nota_credito"); [reflexivity |].
    destruct (String.eqb tipo "nota_debito"); [reflexivity |].
    unfold AFIPService.inherited.
    destruct (existsb _ _); [reflexivity |].
    destruct (String.eqb tipo "__proto__"); reflexivity.
  - intros Hn.
    destruct (String.eqb tipo "factura"); [exists 1; split; [lia | reflexivity] |].
    destruct (String.eqb tipo "nota_credito"); [exists 2; split; [lia | reflexivity] |].
    destruct (String.eqb tipo "nota_debito"); [exists 3; split; [lia | reflexivity] |].
    unfold not_inherited in Hn.
    destruct (AFIPService.inherited tipo); try discriminate Hn.
    exists 1. split; [lia | reflexivity].
  - intros Hin. cbn in Hin.
    repeat (destruct Hin as [<- | Hin]; [reflexivity |]). contradiction.
Qed.

Lemma is_digit_not_dash (c : ascii) :
  Str.is_digit c = true -> Ascii.eqb c "-" = false.
Proof.
  destruct c as [[|] [|] [|] [|] [|] [|] [|] [|]]; cbn; intros H;
    first [reflexivity | discriminate H].
Qed.

Lemma fecha_regex_shape (s : string) :
  Route.fecha_regex s = true ->
  exists y1 y2 y3 y4 m1 m2 d1 d2,
    s = String y1 (String y2 (String y3 (String y4 (String "-"
          (String m1 (String m2 (String "-" (String d1 (String d2 EmptyString)))))))))
    /\ forallb Str.is_digit [y1; y2; y3; y4; m1; m2; d1; d2] = true.
Proof.
  unfold Route.fecha_regex. intros H.
  destruct s as [| y1 [| y2 [| y3 [| y4 [| a [| m1 [| m2 [| b [| d1 [| d2 [| ? ?]]]]]]]]]]];
    try discriminate H.
  cbn [list_ascii_of_string] in H.
  apply andb_prop in H as [H Hb]. apply andb_prop in H as [H Ha].
  apply Ascii.eqb_eq in Ha, Hb. subst a b.
  exists y1, y2, y3, y4, m1, m2, d1, d2. split; [reflexivity | exact H].
Qed.

(** Property X12. For an invoice whose date passes the pattern of the
    schema, the [ar:CbteFch] of the request document is a string of eight
    digits. *)
Theorem CbteFch_eight_digits (config : AFIPConfig) (inv : InvoiceData) :
  Route.fecha_regex (fecha inv) = true ->
  exists d,
    xpath CbteFch_path (AFIPService.xmlData config inv) = XVal (JSString d) /\
    String.length d = 8%nat /\ Str.all_digits d = true.
Proof.
  intros H.
  destruct (fecha_regex_shape _ H) as (y1 & y2 & y3 & y4 & m1 & m2 & d1 & d2 & Hs & Hd).
  exists (Str.remove_dashes (fecha inv)). split; [reflexivity |].
  rewrite Hs. cbn [forallb] in Hd.
  repeat (apply andb_prop in Hd as [?Hc Hd]).
  cbn [Str.remove_dashes].
  change (Ascii.eqb "-" "-") with true. cbn iota.
  rewrite !is_digit_not_dash by assumption.
  cbn [String.length Str.all_digits].
  repeat match goal with H : Str.is_digit _ = true |- _ => rewrite H; clear H end.
  split; reflexivity.
Qed.

Lemma CbteFch_eight_digits_witness :
  exists d,
    xpath CbteFch_path (AFIPService.xmlData Sample.config Sample.invoice)
    = XVal (JSString d) /\
    String.length d = 8%nat /\ Str.all_digits d = true.
Proof. apply CbteFch_eight_digits. reflexivity. Defined.

(** Property X13. [signXML] rewrites the first occurrence of
    [TOKEN_PLACEHOLDER], then the first occurrence of [SIGN_PLACEHOLDER] in
    the result, and leaves every other character; a document with neither
    placeholder is returned unchanged. *)
Theorem signXML_spec (xml : string) :
  exists withToken signed,
    run (AFIPService.signXML xml) = (Return signed, [Call "signXML"]) /\
    replaced "TOKEN_PLACEHOLDER" "SIMULATED_TOKEN" xml withToken /\
    replaced "SIGN_PLACEHOLDER" "SIMULATED_SIGNATURE" withToken signed /\
    (includes "TOKEN_PLACEHOLDER" xml = false ->
     includes "SIGN_PLACEHOLDER" xml = false -> signed = xml).
Proof.
  exists (Str.replace_first "TOKEN_PLACEHOLDER" "SIMULATED_TOKEN" xml),
    (Str.replace_first "SIGN_PLACEHOLDER" "SIMULATED_SIGNATURE"
       (Str.replace_first "TOKEN_PLACEHOLDER" "SIMULATED_TOKEN" xml)).
  split; [reflexivity |].
  split; [apply replace_first_spec |]. split; [apply replace_first_spec |].
  intros Ht Hs.
  pose proof (replace_first_spec "TOKEN_PLACEHOLDER" "SIMULATED_TOKEN" xml) as H1.
  unfold replaced in H1. rewrite Ht in H1. rewrite H1.
  pose proof (replace_first_spec "SIGN_PLACEHOLDER" "SIMULATED_SIGNATURE" xml) as H2.
  unfold replaced in H2. rewrite Hs in H2. exact H2.
Qed.

Lemma recompute_map (form : list InvoiceItem) :
  Page.recompute form
  = map (fun it => Page.set_importeTotal (round2 (Page.totalItem it))
                     (Page.set_importeIVA (round2 (Page.ivaItem it)) it)) form.
Proof. exact (forEach_from_spec [] form). Qed.

(** Property X14. The recomputation of the form is idempotent: a second
    run changes nothing. It keeps the number of lines and, of every line,
    the id, description, quantity, price and rate. *)
Theorem recompute_idempotent (form : list InvoiceItem) :
  Page.recompute (Page.recompute form) = Page.recompute form /\
  List.length (Page.recompute form) = List.length form /\
  map (fun it => (id it, descripcion it, cantidad it, precioUnitario it, alicuotaIVA it))
      (Page.recompute form)
  = map (fun it => (id it, descripcion it, cantidad it, precioUnitario it, alicuotaIVA it))
        form.
Proof.
  rewrite !recompute_map, !map_map, length_map. repeat split.
Qed.

Lemma stringify_number (x : number) :
  exists j, JSON_stringify (JSNumber x) = Some j.
Proof. cbn. eexists. reflexivity. Qed.

Lemma getTipoComprobante_method (tipo : string) :
  In tipo AFIPService.Object_prototype_methods ->
  AFIPService.getTipoComprobante tipo = JSFunction tipo.
Proof.
  intros Hin. cbn in Hin.
  repeat (destruct Hin as [<- | Hin]; [reflexivity |]). contradiction.
Qed.

(** Property X15. For an invoice with a document number, the payload is
    always a JSON object: for a kind that names no inherited property it has
    the thirteen fields in their order, whatever the numbers are; for a kind
    that names a method of [Object.prototype] the field [tipoCmp] is
    missing. *)
Theorem qr_payload_keys (config : AFIPConfig) (inv : InvoiceData) (code doc : string) :
  numeroDocumento (cliente inv) = Some doc ->
  exists qrString,
    JSON_stringify (AFIPService.qrData config inv code) = Some qrString /\
    (not_inherited (tipoComprobante inv) = true -> json_keys qrString = payload_keys) /\
    (In (tipoComprobante inv) AFIPService.Object_prototype_methods ->
     json_keys qrString
     = [ "ver"; "fecha"; "cuit"; "ptoVta"; "nroCmp"; "importe"; "moneda"; "ctz";
         "tipoDocRec"; "nroDocRec"; "tipoCodAut"; "codAut" ]).
Proof.
  intros Hd. unfold AFIPService.qrData. rewrite Hd.
  cbn [JSON_stringify of_option_string].
  eexists. split; [reflexivity |]. split.
  - intros Hn. destruct (getTipoComprobante_number _ Hn) as (x & -> & _).
    reflexivity.
  - intros Hin. rewrite (getTipoComprobante_method _ Hin). reflexivity.
Qed.

Lemma qr_payload_keys_witness :
  exists qrString,
    JSON_stringify (AFIPService.qrData Sample.config Sample.invoice "49999999999999")
    = Some qrString /\
    (not_inherited (tipoComprobante Sample.invoice) = true ->
     json_keys qrString = payload_keys) /\
    (In (tipoComprobante Sample.invoice) AFIPService.Object_prototype_methods ->
     json_keys qrString
     = [ "ver"; "fecha"; "cuit"; "ptoVta"; "nroCmp"; "importe"; "moneda"; "ctz";
         "tipoDocRec"; "nroDocRec"; "tipoCodAut"; "codAut" ]).
Proof.
  apply (qr_payload_keys Sample.config Sample.invoice "49999999999999" "30712345678").
  reflexivity.
Defined.

Lemma next_number_positive (n : Z) :
  1 <= n <= 1000 -> Route.z_positive (of_Z n) = true.
Proof.
  intros Hn.
  assert (Hall : forallb (fun k => Route.z_positive (of_Z (Z.of_nat k))) (seq 1 1000) = true)
    by (vm_compute; reflexivity).
  rewrite forallb_forall in Hall. specialize (Hall (Z.to_nat n)).
  rewrite Z2Nat.id in Hall by lia. apply Hall, in_seq. lia.
Qed.

Lemma next_number_value (env : Env) :
  unit_interval (Math_random env) ->
  exists n, 1 <= n <= 1000 /\
    add (Math_floor (mul (Math_random env) (of_Z 1000))) (of_Z 1) = of_Z n.
Proof.
  intros Hr.
  destruct (Rounding.floor_mul_unit (Math_random env) 8796093022208000 (-43)
              (8796093022208000 - 1) Hr) as (q & Hq & Hfloor);
    [zconst | zconst | zconst | zconst |].
  change (_ / _) with 999 in Hq.
  rewrite <- of_Z_1000 in Hfloor.
  exists (q + 1). split; [lia |].
  destruct Hfloor as [-> | [-> ->]]; [now apply Digits.add_one_small | reflexivity].
Qed.

(** A whole number from 1 up to [2^53] is written into a body as it is. *)
Lemma json_field_of_Z (n : Z) :
  0 < n < 2 ^ 53 -> Route.json_field (Some (of_Z n)) = Some (JNum (of_Z n)).
Proof.
  intros H. destruct n as [| p | p]; try lia.
  destruct (Rounding.of_Z_pos p) as (m & e & -> & _); [lia | reflexivity].
Qed.

(** Property X17. For a [Math.random()] of the unit interval, [GET]
    answers with the status 200 and a next number between 1 and 1000,
    whatever the query, together with the configured sales point as JSON
    writes it; the number passes the positivity check of the schema. *)
Theorem GET_number_valid (env : Env) (config : AFIPConfig) (tipo : option string) :
  unit_interval (Math_random env) ->
  exists n,
    1 <= n <= 1000 /\
    run (RouteGET.GET env config tipo)
    = (Return (RouteGET.mkGet 200
                 (RouteGET.GetSuccess
                    (RouteGET.mkNumberData (Some (JNum (of_Z n)))
                       (Route.json_field (Some (cfg_puntoVenta config)))))),
       [Call "getNextInvoiceNumber"]) /\
    Route.z_positive (of_Z n) = true.
Proof.
  intros Hr. destruct (next_number_value env Hr) as (n & Hn & Hv).
  exists n. split; [exact Hn |]. split; [| now apply next_number_positive].
  unfold RouteGET.GET, AFIPService.getNextInvoiceNumber, run, try_catch, bind, log, ret.
  cbn [app]. rewrite Hv, json_field_of_Z; [reflexivity |].
  change (2 ^ 53) with 9007199254740992. lia.
Qed.

Lemma GET_number_valid_witness :
  exists n,
    1 <= n <= 1000 /\
    run (RouteGET.GET Sample.env Sample.config None)
    = (Return (RouteGET.mkGet 200
                 (RouteGET.GetSuccess
                    (RouteGET.mkNumberData (Some (JNum (of_Z n)))
                       (Route.json_field (Some (cfg_puntoVenta Sample.config)))))),
       [Call "getNextInvoiceNumber"]) /\
    Route.z_positive (of_Z n) = true.
Proof.
  apply GET_number_valid. repeat split; vm_compute; reflexivity.
Defined.
Lemma civil_bounds (days : Z) :
  0 <= days <= 2932896 ->
  let '(y, m, d) := JSDate.civil_from_days days in
  0 <= y <= 9999 /\ 1 <= m <= 12 /\ 1 <= d <= 31.
Proof.
  intros H. unfold JSDate.civil_from_days.
  cbv zeta.
  set (z := days + 719468).
  set (era := z / 146097).
  set (doe := z - era * 146097).
  assert (Hdoe : 0 <= doe <= 146096) by (subst doe era; dlia).
  assert (Hera : 4 <= era <= 24) by (subst era z; dlia).
  
  set (yoe := (doe - doe / 1460 + doe / 36524 - doe / 146096) / 365).
  assert (Hyoe : 0 <= yoe <= 399) by (subst yoe; clearbody doe; clear - Hdoe; dlia).
  
  set (doy := doe - (365 * yoe + yoe / 4 - yoe / 100)).
  assert (Hdoy : 0 <= doy <= 365).
  { subst doy yoe. clearbody doe. clear - Hdoe. dlia. }
  
  set (mp := (5 * doy + 2) / 153).
  assert (Hmp : 0 <= mp <= 11) by (subst mp; clearbody doy; clear - Hdoy; dlia).
  assert (Hd : 1 <= doy - (153 * mp + 2) / 5 + 1 <= 31)
    by (subst mp; clearbody doy; clear - Hdoy; dlia).
  
  assert (Hy : 0 <= (if (if mp <? 10 then mp + 3 else mp - 9) <=? 2
                     then yoe + era * 400 + 1 else yoe + era * 400) <= 9999).
  { destruct (mp <? 10) eqn:E1; [apply Z.ltb_lt in E1 | apply Z.ltb_ge in E1].
    - replace (mp + 3 <=? 2) with false by (symmetry; apply Z.leb_gt; lia). lia.
    - replace (mp - 9 <=? 2) with true by (symmetry; apply Z.leb_le; lia).
      split; [lia |].
      destruct (Z.eq_dec era 24) as [He | He]; [| lia].
      assert (doe <= 146036) by (subst doe z; lia).
      
      subst mp doy yoe. clearbody doe. clear - H0 Hdoe E1 He. 
      Z.to_euclidean_division_equations. lia. }
  
  split; [exact Hy |].
  destruct (mp <? 10) eqn:E1; [apply Z.ltb_lt in E1 | apply Z.ltb_ge in E1];
    split; lia.
Qed.

Lemma digits_length_le (n : Z) (k : nat) :
  0 <= n < 10 ^ Z.of_nat (S k) -> (String.length (Str.digits n) <= S k)%nat.
Proof.
  intros H. pose proof (Digits.length_digits_fuel (Z.to_nat (Z.log2 n)) n "" k H) as L.
  cbn [String.length] in L. unfold Str.digits. lia.
Qed.

Lemma digits_all (n : Z) : Str.all_digits (Str.digits n) = true.
Proof. apply Digits.all_digits_fuel. reflexivity. Qed.

(** A number below [10^k] padded to [k] places is [k] digits. *)
Lemma pad_digits (k : nat) (n : Z) :
  0 <= n < 10 ^ Z.of_nat (S k) ->
  String.length (JSDate.pad (S k) n) = S k /\ Str.all_digits (JSDate.pad (S k) n) = true.
Proof.
  intros H. unfold JSDate.pad. split.
  - rewrite Digits.length_padStart. pose proof (digits_length_le n k H). lia.
  - unfold Str.padStart.
    rewrite Digits.all_digits_append, Digits.all_digits_repeat_zero. apply digits_all.
Qed.

Lemma string_of_length_2 (s : string) :
  String.length s = 2%nat -> exists a b, s = String a (String b EmptyString).
Proof.
  destruct s as [| a [| b [| c s]]]; cbn; intros H; try discriminate H. now exists a, b.
Qed.

Lemma string_of_length_4 (s : string) :
  String.length s = 4%nat ->
  exists a b c d, s = String a (String b (String c (String d EmptyString))).
Proof.
  destruct s as [| a [| b [| c [| d [| e s]]]]]; cbn; intros H; try discriminate H.
  now exists a, b, c, d.
Qed.

Lemma iso_date_shape (days : Z) :
  0 <= days <= 2932896 -> Route.fecha_regex (JSDate.iso_date days) = true.
Proof.
  intros H. pose proof (civil_bounds days H) as Hb. unfold JSDate.iso_date.
  destruct (JSDate.civil_from_days days) as [[y m] d]. destruct Hb as (Hy & Hm & Hd).
  replace ((0 <=? y) && (y <=? 9999)) with true
    by (symmetry; apply andb_true_intro; split; apply Z.leb_le; lia).
  destruct (pad_digits 3 y ltac:(change (10 ^ Z.of_nat 4) with 10000; lia)) as [Ly Ay].
  destruct (pad_digits 1 m ltac:(change (10 ^ Z.of_nat 2) with 100; lia)) as [Lm Am].
  destruct (pad_digits 1 d ltac:(change (10 ^ Z.of_nat 2) with 100; lia)) as [Ld Ad].
  destruct (string_of_length_4 _ Ly) as (y1 & y2 & y3 & y4 & Ey).
  destruct (string_of_length_2 _ Lm) as (m1 & m2 & Em).
  destruct (string_of_length_2 _ Ld) as (d1 & d2 & Ed).
  rewrite Ey in *. rewrite Em in *. rewrite Ed in *.
  cbn [Str.all_digits] in Ay, Am, Ad.
  repeat match goal with H : _ && _ = true |- _ => apply andb_prop in H as [? ?] end.
  unfold Route.fecha_regex.
  change (list_ascii_of_string _) with [y1; y2; y3; y4; "-"%char; m1; m2; "-"%char; d1; d2].
  cbn [forallb].
  repeat match goal with H : Str.is_digit _ = true |- _ => rewrite H; clear H end.
  reflexivity.
Qed.

Lemma getFechaVencimientoCAE_run (env : Env) :
  run (AFIPService.getFechaVencimientoCAE env)
  = (expiry env, [Call "getFechaVencimientoCAE"]).
Proof.
  unfold AFIPService.getFechaVencimientoCAE, expiry, run, bind, log, ret, lift.
  cbv zeta. cbn [app].
  destruct (JSDate.setDate _ _ _); reflexivity.
Qed.

(** With offsets of at most a day, the instant ten local days later is
    between eight and twelve days of 24 hours after the clock. *)
Lemma ten_days_later_bounds (env : Env) :
  zone_within_a_day env ->
  Date_now env + 8 * JSDate.msPerDay <= ten_days_later env
  <= Date_now env + 12 * JSDate.msPerDay.
Proof.
  intros Hz. unfold ten_days_later, JSDate.UTC, JSDate.LocalTime.
  pose proof (Hz (Date_now env) true) as H1.
  pose proof (Hz (Date_now env + LocalTZA env (Date_now env) true + 10 * JSDate.msPerDay)
                false) as H2.
  unfold JSDate.msPerDay in *. lia.
Qed.

(** Property X18. For a clock between 1970 and twelve days before the end
    of the year 9999, in a zone whose offsets are at most a day,
    [getFechaVencimientoCAE] returns the UTC date of the instant ten days
    after the clock on the local calendar: a string of ten characters of the
    shape dddd-dd-dd, the one the schema asks of a date, which names a day
    eight to twelve days after the UTC day of the clock, and the tenth when
    the zone has the same offset at both ends. *)
Theorem expiry_date_shape (env : Env) :
  0 <= Date_now env < 253401264000000 ->
  zone_within_a_day env ->
  exists date,
    run (AFIPService.getFechaVencimientoCAE env)
    = (Return date, [Call "getFechaVencimientoCAE"]) /\
    date = JSDate.iso_date (JSDate.Day (ten_days_later env)) /\
    Date_now env / JSDate.msPerDay + 8 <= JSDate.Day (ten_days_later env)
    <= Date_now env / JSDate.msPerDay + 12 /\
    (steady_zone env -> date = JSDate.iso_date (Date_now env / JSDate.msPerDay + 10)) /\
    String.length date = 10%nat /\
    Route.fecha_regex date = true.
Proof.
  intros H Hz. pose proof (ten_days_later_bounds env Hz) as Hb.
  assert (Hv : valid_time (ten_days_later env)).
  { unfold valid_time. unfold JSDate.msPerDay in Hb. lia. }
  assert (Hd : 0 <= JSDate.Day (ten_days_later env) <= 2932896).
  { unfold JSDate.Day. unfold JSDate.msPerDay in *. dlia. }
  exists (JSDate.iso_date (JSDate.Day (ten_days_later env))).
  split; [now rewrite getFechaVencimientoCAE_run, (expiry_valid env Hv) |].
  split; [reflexivity |].
  split; [unfold JSDate.Day; unfold JSDate.msPerDay in *; dlia |].
  split; [intros Hs; now rewrite (steady_day env Hs) |].
  pose proof (iso_date_shape _ Hd) as Hs. split; [| exact Hs].
  unfold Route.fecha_regex in Hs.
  destruct (JSDate.iso_date _) as [| ? [| ? [| ? [| ? [| ? [| ? [| ? [| ? [| ? [| ? [| ? ?]]]]]]]]]]];
    try discriminate Hs.
  reflexivity.
Qed.

Lemma expiry_date_shape_witness :
  exists date,
    run (AFIPService.getFechaVencimientoCAE Sample.env_new_york)
    = (Return date, [Call "getFechaVencimientoCAE"]) /\
    date = JSDate.iso_date (JSDate.Day (ten_days_later Sample.env_new_york)) /\
    Date_now Sample.env_new_york / JSDate.msPerDay + 8
    <= JSDate.Day (ten_days_later Sample.env_new_york)
    <= Date_now Sample.env_new_york / JSDate.msPerDay + 12 /\
    (steady_zone Sample.env_new_york ->
     date = JSDate.iso_date (Date_now Sample.env_new_york / JSDate.msPerDay + 10)) /\
    String.length date = 10%nat /\
    Route.fecha_regex date = true.
Proof.
  apply expiry_date_shape.
  - cbn. lia.
  - intros t isUTC. cbn [LocalTZA Sample.env_new_york]. unfold Sample.new_york.
    destruct isUTC; destruct (t <? _); vm_compute; discriminate.
Defined.

(** Across a change of the offset the date is not the UTC date of the clock
    plus ten days: at 19:30 of the first of March 2024 in New York, which is
    2024-03-02T00:30Z, ten local days later is 19:30 of the eleventh in
    summer time, 23:30Z of the same day. *)
Lemma expiry_across_offset_change :
  run (AFIPService.getFechaVencimientoCAE Sample.env_new_york)
  = (Return "2024-03-11", [Call "getFechaVencimientoCAE"]) /\
  JSDate.iso_date (Date_now Sample.env_new_york / JSDate.msPerDay) = "2024-03-02" /\
  JSDate.iso_date (Date_now Sample.env_new_york / JSDate.msPerDay + 10) = "2024-03-12" /\
  ~ steady_zone Sample.env_new_york.
Proof.
  repeat (split; [vm_compute; reflexivity |]). vm_compute. discriminate.
Qed.

(** Property X19. An answer of [POST] with the status 500 is one of two:
    "Error interno del servidor" for a body that is not JSON, logged by the
    route; or "Error al procesar la factura: " with the message of what was
    thrown inside the service, logged by the service after [sendInvoice]
    was called: by the XML builder on the document of the invoice, by the
    date, or by the QR library on the payload of the invoice. *)
Theorem POST_server_errors (env : Env) (config : AFIPConfig)
    (request : outcome InvoiceData) (resp : Route.Response) (tr : list event) :
  run (Route.POST env config request) = (Return resp, tr) ->
  Route.status resp = 500 ->
  (exists e, request = Throw e /\
     resp = Route.mkHttp 500 (Route.Failure "Error interno del servidor" None) /\
     tr = [ConsoleError "Error en API de factura:"]) \/
  (exists inv e, request = Return inv /\
     resp = Route.mkHttp 500
              (Route.Failure
                 (String.append "Error al procesar la factura: "
                    match e with
                    | ErrorObject message => message
                    | OtherThrown => "Error desconocido"
                    end) None) /\
     last tr = Some (ConsoleError "Error en AFIP Service:") /\
     In (Call "sendInvoice") tr /\
     (buildObject env (AFIPService.xmlData config inv) = Throw e \/
      expiry env = Throw e \/
      exists qrString,
        JSON_stringify (AFIPService.qrData config inv (simulated_code env))
        = Some qrString /\
        toDataURL env qrString = Throw e)).
Proof.
  rewrite POST_run. destruct request as [inv | e0].
  2:{ intros [= <- <-] _. left. now exists e0. }
  destruct (Route.InvoiceSchema inv) eqn:Hs.
  2:{ intros [= <- _] H. discriminate H. }
  destruct (gt (Math_abs (sub (Route.calculatedSubtotal inv) (subtotal inv))) (decimal 1 2));
    [intros [= <- _] H; discriminate H |].
  destruct (gt (Math_abs (sub (Route.calculatedIVA inv) (totalIVA inv))) (decimal 1 2));
    [intros [= <- _] H; discriminate H |].
  rewrite sendInvoice_run, (schema_complete inv Hs).
  destruct (buildObject env _) as [xml | e] eqn:Hx.
  - destruct (expiry env) as [date | e] eqn:He.
    + destruct (JSON_stringify _) as [j |] eqn:Hj.
      * destruct (toDataURL env j) as [qr | e] eqn:Hq; intros [= <- <-] H;
          [discriminate H |].
        right. exists inv, e. split; [reflexivity |]. split; [| split; [| split]].
        -- cbn [success AFIPService.failure error]. unfold Route.or_string.
           destruct e; reflexivity.
        -- reflexivity.
        -- left. reflexivity.
        -- right. right. exists j. split; first [reflexivity | assumption].
      * destruct (stringify_qrData config inv (simulated_code env)) as [f Hf].
        rewrite Hf in Hj. discriminate Hj.
    + intros [= <- <-] _. right. exists inv, e.
      split; [reflexivity |]. split; [| split; [| split]].
      * cbn [success AFIPService.failure error]. unfold Route.or_string.
        destruct e; reflexivity.
      * reflexivity.
      * left. reflexivity.
      * right. left. first [reflexivity | assumption].
  - intros [= <- <-] _. right. exists inv, e.
    split; [reflexivity |]. split; [| split; [| split]].
    + cbn [success AFIPService.failure error]. unfold Route.or_string.
      destruct e; reflexivity.
    + reflexivity.
    + left. reflexivity.
    + left. first [reflexivity | assumption].
Qed.

Lemma POST_server_errors_witness :
  exists inv e, Return Sample.invoice = Return inv /\
    Route.mkHttp 500
      (Route.Failure "Error al procesar la factura: Invalid character in name" None)
    = Route.mkHttp 500
        (Route.Failure
           (String.append "Error al procesar la factura: "
              match e with
              | ErrorObject message => message
              | OtherThrown => "Error desconocido"
              end) None) /\
    last [Call "sendInvoice"; Call "generateXMLRequest";
          ConsoleError "Error en AFIP Service:"]
    = Some (ConsoleError "Error en AFIP Service:") /\
    In (Call "sendInvoice")
       [Call "sendInvoice"; Call "generateXMLRequest";
        ConsoleError "Error en AFIP Service:"] /\
    (buildObject Sample.env_builder_throws
       (AFIPService.xmlData Sample.config inv) = Throw e \/
     expiry Sample.env_builder_throws = Throw e \/
     exists qrString,
       JSON_stringify (AFIPService.qrData Sample.config inv
                         (simulated_code Sample.env_builder_throws))
       = Some qrString /\
       toDataURL Sample.env_builder_throws qrString = Throw e).
Proof.
  destruct (POST_server_errors Sample.env_builder_throws Sample.config
              (Return Sample.invoice)
              (Route.mkHttp 500
                 (Route.Failure "Error al procesar la factura: Invalid character in name"
                    None))
              [Call "sendInvoice"; Call "generateXMLRequest";
               ConsoleError "Error en AFIP Service:"])
    as [(e & H & _) | H].
  - vm_compute. reflexivity.
  - reflexivity.
  - discriminate H.
  - exact H.
Defined.

Lemma POST_ignores_total_witness :
  (In (Call "sendInvoice")
      (snd (run (Route.POST Sample.env Sample.config
                   (Return (with_total (of_Z 243) Sample.invoice)))))
   <-> In (Call "sendInvoice")
          (snd (run (Route.POST Sample.env Sample.config (Return Sample.invoice))))) /\
  forall resp tr,
    run (Route.POST Sample.env Sample.config (Return Sample.invoice)) = (Return resp, tr) ->
    Route.status resp = 400 ->
    run (Route.POST Sample.env Sample.config (Return (with_total (of_Z 243) Sample.invoice)))
    = (Return resp, tr).
Proof. apply POST_ignores_total; reflexivity. Defined.

Lemma POST_guard_unreachable_witness :
  run (Route.POST Sample.env Sample.config (Return (mkInvoice "factura" (of_Z 1) (of_Z 7) "2024-01-01" Sample.cliente []
                      (of_Z 200) (of_Z 42) (of_Z 242) None)))
  = (Return (Route.mkHttp 400
               (Route.Failure "Datos de factura inválidos" (Some ["items"]))), []) /\
  Route.body (Route.mkHttp 400
                (Route.Failure "Datos de factura inválidos" (Some ["items"])))
  <> Route.Failure "Datos incompletos: se requiere CUIT del cliente e items" None.
Proof.
  split.
  - vm_compute. reflexivity.
  - apply (POST_guard_unreachable Sample.env Sample.config (Return (mkInvoice "factura" (of_Z 1) (of_Z 7) "2024-01-01" Sample.cliente []
                      (of_Z 200) (of_Z 42) (of_Z 242) None)) _ []).
    vm_compute. reflexivity.
Defined.
